(** * SciQLop: the data-provider layer

    A shallow embedding of
    - [SciQLop/backend/pipelines_model/data_provider.py] (the provider
      registry and [DataProvider]), and
    - [SciQLop/backend/pipelines_model/easy_provider.py]
      ([build_product_hierarchy], [ensure_dt64] and the four [Easy*]
      adapters),
    with the properties of the specification stated over it.

    Python objects that are shared and mutated (metadata dicts, product
    nodes, provider instances, the [providers] module global) live in an
    explicit store; code that may raise returns a [result]. *)

From Stdlib Require Import ZArith String Ascii List.
From Stdlib Require Import Floats.SpecFloat.
From stdpp Require Import gmap strings list fin_maps pretty.

Local Open Scope string_scope.

(* ===================================================================== *)
(** ** Python values, exceptions *)
(* ===================================================================== *)

(** The exceptions the modelled code can raise.  [UserException] stands for
    whatever a user callback raises. *)
Inductive exn :=
| ValueError (msg : string)
| KeyError (key : string)
| TypeError (msg : string)
| AttributeError (attr : string)
| IndexError (msg : string)
| RecursionError
| UserException (what : string).

Inductive result (A : Type) :=
| Ok (a : A)
| Raise (e : exn).
Arguments Ok {A} a.
Arguments Raise {A} e.

Definition result_bind {A B} (f : A → result B) (r : result A) : result B :=
  match r with
  | Ok a => f a
  | Raise e => Raise e
  end.

#[global] Instance result_mret : MRet result := @Ok.
#[global] Instance result_mbind : MBind result := @result_bind.

(** IEEE 754 binary64, as the Standard Library specifies it. *)
Definition f64 : Type := spec_float.
Definition f64_prec : Z := 53.
Definition f64_emax : Z := 1024.
Definition f64_mul (x y : f64) : f64 := SFmul f64_prec f64_emax x y.
Definition f64_of_Z (z : Z) : f64 := binary_normalize f64_prec f64_emax z 0 false.

(** The Python literal [1e9]. *)
Definition f64_1e9 : f64 := Eval vm_compute in f64_of_Z 1000000000.

(** numpy element types.  [datetime64] carries its unit. *)
Inductive time_unit := unit_s | unit_ms | unit_us | unit_ns.

Inductive dtype :=
| dt_datetime64 (u : time_unit)
| dt_float64
| dt_int64
| dt_str
| dt_other (name : string).

#[global] Instance time_unit_eq_dec : EqDecision time_unit.
Proof. solve_decision. Defined.
#[global] Instance dtype_eq_dec : EqDecision dtype.
Proof. solve_decision. Defined.

(** The elements of an array, in row-major order.  A [datetime64] element is
    its 64-bit count of units since the epoch. *)
Inductive ndbuffer :=
| buf_datetime64 (u : time_unit) (l : list Z)
| buf_float64 (l : list f64)
| buf_int64 (l : list Z)
| buf_str (l : list string)
| buf_other (name : string) (size : nat).

(** A [numpy.ndarray], as a value: shape and elements. *)
Record ndarray := mk_ndarray {
  nd_shape : list nat;
  nd_buf : ndbuffer
}.

Definition buf_dtype (b : ndbuffer) : dtype :=
  match b with
  | buf_datetime64 u _ => dt_datetime64 u
  | buf_float64 _ => dt_float64
  | buf_int64 _ => dt_int64
  | buf_str _ => dt_str
  | buf_other n _ => dt_other n
  end.

Definition nd_dtype (a : ndarray) : dtype := buf_dtype (nd_buf a).

(** [len(a)]: the first dimension ([TypeError] on a 0-d array). *)
Definition nd_len (a : ndarray) : result nat :=
  match nd_shape a with
  | n :: _ => Ok n
  | [] => Raise (TypeError "len() of unsized object")
  end.

(** speasy's containers, an external library: the values they hold.  The
    check the constructor of a variable makes is in [SpeasyVariable_new]. *)
Inductive DataContainer := mk_DataContainer (values : ndarray).

Inductive axis :=
| VariableTimeAxis (values : ndarray)
| VariableAxis (values : ndarray).

Definition axis_values (a : axis) : ndarray :=
  match a with
  | VariableTimeAxis v => v
  | VariableAxis v => v
  end.

(** [columns] is [None] when the constructor is called without it. *)
Record SpeasyVariable := mk_SpeasyVariable {
  sv_axes : list axis;
  sv_values : DataContainer;
  sv_columns : option (list string)
}.

(** The Python values that reach the modelled code.  [PyInstance] is an
    object of any other class, subclasses of [ndarray], [tuple] and
    [SpeasyVariable] included: [type(x) is C] is false for them. *)
Inductive pyval :=
| PyNone
| PyBool (b : bool)
| PyInt (z : Z)
| PyFloat (f : f64)
| PyStr (s : string)
| PyList (l : list pyval)
| PyTuple (l : list pyval)
| PyNdarray (a : ndarray)
| PySpeasyVariable (v : SpeasyVariable)
| PyInstance (class_name : string).

(** [type(x)], as printed by an f-string. *)
Definition type_repr (v : pyval) : string :=
  match v with
  | PyNone => "<class 'NoneType'>"
  | PyBool _ => "<class 'bool'>"
  | PyInt _ => "<class 'int'>"
  | PyFloat _ => "<class 'float'>"
  | PyStr _ => "<class 'str'>"
  | PyList _ => "<class 'list'>"
  | PyTuple _ => "<class 'tuple'>"
  | PyNdarray _ => "<class 'numpy.ndarray'>"
  | PySpeasyVariable _ => "<class 'speasy.products.variable.SpeasyVariable'>"
  | PyInstance c => "<class '" +:+ c +:+ "'>"
  end.

(* ===================================================================== *)
(** ** numpy operations used by the adapters *)
(* ===================================================================== *)

Definition int64_min : Z := - 2 ^ 63.
Definition int64_max : Z := 2 ^ 63 - 1.

(** [NaT] is the minimum 64-bit integer. *)
Definition NaT : Z := int64_min.

(** The integer part of a finite float, rounded toward zero. *)
Definition f64_trunc (f : f64) : option Z :=
  match f with
  | S754_zero _ => Some 0%Z
  | S754_finite s m e =>
      let a := match e with
               | Zneg p => Z.shiftr (Zpos m) (Zpos p)
               | _ => Z.shiftl (Zpos m) e
               end in
      Some (if s then (- a)%Z else a)
  | S754_infinity _ | S754_nan => None
  end.

(** One element of [astype("datetime64[ns]")] on a float64 array: NaN
    becomes NaT, a finite value is truncated toward zero.  Outside the
    64-bit range the C conversion numpy performs is undefined; the value on
    x86-64, the minimum integer (so NaT), is taken. *)
Definition f64_to_datetime64 (f : f64) : Z :=
  match f64_trunc f with
  | Some z => if bool_decide (int64_min ≤ z ≤ int64_max)%Z then z else NaT
  | None => NaT
  end.

(** [a * k] for an array [a] and a Python float [k]: the element-wise
    binary64 product.  Only float64 arrays are multiplied in the modelled
    code; the other element types are not modelled.  On a 0-d array numpy
    gives a scalar, not an array: the scalar is represented here by the
    0-d array of the same value, and so is what [astype] makes of it.
    Statements that hand such a result back to the code as an array leave
    the 0-d float arrays out. *)
Definition nd_mul_float (a : ndarray) (k : f64) : result ndarray :=
  match nd_buf a with
  | buf_float64 l =>
      Ok {| nd_shape := nd_shape a;
            nd_buf := buf_float64 (map (λ v, f64_mul v k) l) |}
  | _ => Raise (TypeError "unsupported operand type(s) for *")
  end.

(** [a.astype("datetime64[ns]")], for the element types the modelled code
    converts. *)
Definition nd_astype_datetime64_ns (a : ndarray) : result ndarray :=
  match nd_buf a with
  | buf_float64 l =>
      Ok {| nd_shape := nd_shape a;
            nd_buf := buf_datetime64 unit_ns (map f64_to_datetime64 l) |}
  | buf_datetime64 unit_ns _ => Ok a
  | _ => Raise (TypeError "astype")
  end.

(** [np.ascontiguousarray] on an array keeps shape and elements, except
    that a 0-d array becomes 1-d (memory layout is not modelled). *)
Definition nd_atleast_1d (a : ndarray) : ndarray :=
  match nd_shape a with
  | [] => {| nd_shape := [1]; nd_buf := nd_buf a |}
  | _ => a
  end.

(* ===================================================================== *)
(** ** easy_provider.py: ensure_dt64 *)
(* ===================================================================== *)

Definition ensure_dt64 (x_data : pyval) : result ndarray :=
  match x_data with
  | PyNdarray a =>
      if decide (nd_dtype a = dt_datetime64 unit_ns) then Ok a
      else if decide (nd_dtype a = dt_float64) then
        scaled ← nd_mul_float a f64_1e9;
        nd_astype_datetime64_ns scaled
      else Raise (ValueError ("can't handle x axis type " +:+ type_repr x_data))
  | _ => Raise (ValueError ("can't handle x axis type " +:+ type_repr x_data))
  end.

(* ===================================================================== *)
(** ** Python string and list operations used by the code *)
(* ===================================================================== *)

Definition slash : ascii := "/"%char.

(** [s.startswith(c)] for a one-character [c]. *)
Definition startswith (c : ascii) (s : string) : bool :=
  match s with
  | String c' _ => bool_decide (c' = c)
  | EmptyString => false
  end.

(** [s[1:]] *)
Definition str_tail (s : string) : string :=
  match s with
  | String _ s' => s'
  | EmptyString => EmptyString
  end.

(** [s.split(sep)] for a one-character separator: always at least one
    element, empty segments kept. *)
Fixpoint split (sep : ascii) (s : string) : list string :=
  match s with
  | EmptyString => [EmptyString]
  | String c s' =>
      if bool_decide (c = sep) then EmptyString :: split sep s'
      else match split sep s' with
           | w :: ws => String c w :: ws
           | [] => [String c EmptyString]
           end
  end.

(** [sep.join(l)] *)
Fixpoint join (sep : string) (l : list string) : string :=
  match l with
  | [] => EmptyString
  | [w] => w
  | w :: ws => w +:+ sep +:+ join sep ws
  end.

(** [s[:-n]] for [n = len(t)]: Python reads [s[:-0]] as [s[:0]], the empty
    string. *)
Definition str_drop_last (n : nat) (s : string) : string :=
  match n with
  | 0 => EmptyString
  | _ => substring 0 (String.length s - n) s
  end.

(** [l[0]] and [l[-1]] *)
Definition py_first {A} (l : list A) : result A :=
  match l with
  | x :: _ => Ok x
  | [] => Raise (IndexError "list index out of range")
  end.

Definition py_last {A} (l : list A) : result A :=
  match last l with
  | Some x => Ok x
  | None => Raise (IndexError "list index out of range")
  end.

(** [l[1:-1]] *)
Definition py_inner {A} (l : list A) : list A := removelast (tail l).

(* ===================================================================== *)
(** ** The store *)
(* ===================================================================== *)

Definition loc : Type := positive.

(** [SciQLop.backend.enums], not part of the modelled sources: the two
    enumerations as the specification lists them. *)
Inductive DataOrder := X_FIRST | Y_FIRST.

Inductive ParameterType := SCALAR | VECTOR | MULTICOMPONENT | SPECTROGRAM.

(** [parameter_type.name] *)
Definition ParameterType_name (t : ParameterType) : string :=
  match t with
  | SCALAR => "SCALAR"
  | VECTOR => "VECTOR"
  | MULTICOMPONENT => "MULTICOMPONENT"
  | SPECTROGRAM => "SPECTROGRAM"
  end.

(** Modelled from the spec: the [Product] node class of [SciQLop.backend],
    which is not among the sources.  A node has a name, a uid, a metadata
    mapping, an owning provider name (none when not given), the
    [is_parameter] mark (false when not given), a parameter type (none when
    not given), an icon, and an ordered collection of children.  The
    metadata and the children are references into the store. *)
Record Product := mk_Product {
  p_name : string;
  p_metadata : loc;
  p_provider : option string;
  p_uid : string;
  p_is_parameter : bool;
  p_parameter_type : option ParameterType;
  p_icon : option string;
  p_children : list loc
}.

(** A user callback: its [__name__], and what calling it with
    [(start, stop)] gives. *)
Record callback := mk_callback {
  cb_name : string;
  cb_call : pyval → pyval → result pyval
}.

Inductive pyclass :=
| C_DataProvider
| C_EasyProvider
| C_EasyScalar
| C_EasyVector
| C_EasyMultiComponent
| C_EasySpectrogram.

(** A provider instance: its class and the attributes the constructors
    set, absent until they are assigned. *)
Record instance := mk_instance {
  i_class : pyclass;
  _name : option string;
  _data_order : option DataOrder;
  _user_get_data : option callback;
  _columns : option (list string)
}.

Definition blank (c : pyclass) : instance :=
  {| i_class := c; _name := None; _data_order := None;
     _user_get_data := None; _columns := None |}.

(** The mutable state the code works on.
    - [providers]: the module global of data_provider.py, [None] once the
      interpreter has cleared the module's globals;
    - [instances], [dicts], [nodes]: the provider objects, the dict objects
      and the product nodes, by reference;
    - [products]: modelled from the spec, the externally owned product
      catalog ([SciQLop.backend.models.products]), as the
      [add_product(path, product)] registrations it received, latest first;
    - [incr_names]: modelled from the spec, the per-base-name counters of
      [make_simple_incr_name]. *)
Record world := mk_world {
  providers : option (gmap string loc);
  instances : gmap loc instance;
  dicts : gmap loc (gmap string pyval);
  nodes : gmap loc Product;
  products : list (string * loc);
  incr_names : gmap string nat
}.

Definition set_providers (r : option (gmap string loc)) (w : world) : world :=
  {| providers := r; instances := instances w; dicts := dicts w;
     nodes := nodes w; products := products w; incr_names := incr_names w |}.

Definition set_instances (i : gmap loc instance) (w : world) : world :=
  {| providers := providers w; instances := i; dicts := dicts w;
     nodes := nodes w; products := products w; incr_names := incr_names w |}.

Definition set_dicts (d : gmap loc (gmap string pyval)) (w : world) : world :=
  {| providers := providers w; instances := instances w; dicts := d;
     nodes := nodes w; products := products w; incr_names := incr_names w |}.

Definition set_nodes (n : gmap loc Product) (w : world) : world :=
  {| providers := providers w; instances := instances w; dicts := dicts w;
     nodes := n; products := products w; incr_names := incr_names w |}.

Definition set_products (c : list (string * loc)) (w : world) : world :=
  {| providers := providers w; instances := instances w; dicts := dicts w;
     nodes := nodes w; products := c; incr_names := incr_names w |}.

Definition set_incr_names (c : gmap string nat) (w : world) : world :=
  {| providers := providers w; instances := instances w; dicts := dicts w;
     nodes := nodes w; products := products w; incr_names := c |}.

(** Computations on the store that may raise: the store as it is when the
    exception is raised is kept. *)
Definition M (A : Type) : Type := world → result A * world.

Definition ret {A} (a : A) : M A := λ w, (Ok a, w).
Definition raise {A} (e : exn) : M A := λ w, (Raise e, w).
Definition bind {A B} (m : M A) (f : A → M B) : M B :=
  λ w, match m w with
       | (Ok a, w') => f a w'
       | (Raise e, w') => (Raise e, w')
       end.
Definition lift {A} (r : result A) : M A := λ w, (r, w).
Definition gets {A} (f : world → A) : M A := λ w, (Ok (f w), w).
Definition modify (f : world → world) : M unit := λ w, (Ok tt, f w).

Declare Scope py_scope.
Delimit Scope py_scope with py.
Notation "x <- m ;; k" := (bind m (λ x, k))
  (at level 100, m at next level, right associativity) : py_scope.
Notation "m ;;; k" := (bind m (λ _, k))
  (at level 100, right associativity) : py_scope.
Local Open Scope py_scope.

(** A loop over a list. *)
Fixpoint for_each {A} (l : list A) (body : A → M unit) : M unit :=
  match l with
  | [] => ret tt
  | x :: xs => body x ;;; for_each xs body
  end.

(** Object creation and attribute access. *)
Definition alloc_instance (c : pyclass) : M loc :=
  λ w, let l := fresh (dom (instances w)) in
       (Ok l, set_instances (<[l := blank c]> (instances w)) w).

Definition alloc_dict (d : gmap string pyval) : M loc :=
  λ w, let l := fresh (dom (dicts w)) in
       (Ok l, set_dicts (<[l := d]> (dicts w)) w).

Definition alloc_node (p : Product) : M loc :=
  λ w, let l := fresh (dom (nodes w)) in
       (Ok l, set_nodes (<[l := p]> (nodes w)) w).

Definition read_instance (l : loc) : M instance :=
  λ w, match instances w !! l with
       | Some i => (Ok i, w)
       | None => (Raise (AttributeError "instance"), w)
       end.

Definition read_dict (l : loc) : M (gmap string pyval) :=
  λ w, match dicts w !! l with
       | Some d => (Ok d, w)
       | None => (Raise (AttributeError "dict"), w)
       end.

Definition read_node (l : loc) : M Product :=
  λ w, match nodes w !! l with
       | Some n => (Ok n, w)
       | None => (Raise (AttributeError "node"), w)
       end.

Definition getattr {A} (attr : string) (field : instance → option A) (l : loc) : M A :=
  i <- read_instance l ;;
  match field i with
  | Some a => ret a
  | None => raise (AttributeError attr)
  end.

Definition update_instance (l : loc) (f : instance → instance) : M unit :=
  modify (λ w, set_instances (alter f l (instances w)) w).

Definition set__name (v : string) (i : instance) : instance :=
  {| i_class := i_class i; _name := Some v; _data_order := _data_order i;
     _user_get_data := _user_get_data i; _columns := _columns i |}.

Definition set__data_order (v : DataOrder) (i : instance) : instance :=
  {| i_class := i_class i; _name := _name i; _data_order := Some v;
     _user_get_data := _user_get_data i; _columns := _columns i |}.

Definition set__user_get_data (v : callback) (i : instance) : instance :=
  {| i_class := i_class i; _name := _name i; _data_order := _data_order i;
     _user_get_data := Some v; _columns := _columns i |}.

Definition set__columns (v : list string) (i : instance) : instance :=
  {| i_class := i_class i; _name := _name i; _data_order := _data_order i;
     _user_get_data := _user_get_data i; _columns := Some v |}.

(* ===================================================================== *)
(** ** data_provider.py *)
(* ===================================================================== *)

(** [DataProvider.__init__]: [providers[name] = self], then the two
    attributes.  Finalizers run only where the model calls
    [DataProvider_del]: a provider that the assignment replaces in the
    registry is taken to be still referenced by its creator.  Were the
    registry its last reference, CPython would run its [__del__] inside the
    assignment; statements about the entry just written therefore take the
    name to be free before the call, or say who is disposed of and when. *)
Definition DataProvider_init (self : loc) (name : string) (data_order : DataOrder) : M unit :=
  reg <- gets providers ;;
  match reg with
  | Some r => modify (set_providers (Some (<[name := self]> r)))
  | None => raise (TypeError "'NoneType' object does not support item assignment")
  end ;;;
  update_instance self (set__name name) ;;;
  update_instance self (set__data_order data_order).

(** [DataProvider.__del__]: [providers.pop(self._name)] unless the global is
    [None].  [dict.pop] without a default raises [KeyError] on a missing
    key. *)
Definition DataProvider_del (self : loc) : M unit :=
  reg <- gets providers ;;
  match reg with
  | Some r =>
      name <- getattr "_name" _name self ;;
      match r !! name with
      | Some _ => modify (set_providers (Some (delete name r)))
      | None => raise (KeyError name)
      end
  | None => ret tt
  end.

(** The [name] property. *)
Definition DataProvider_name (self : loc) : M string :=
  getattr "_name" _name self.

(** [DataProvider(name, data_order)] *)
Definition new_DataProvider (name : string) (data_order : DataOrder) : M loc :=
  self <- alloc_instance C_DataProvider ;;
  DataProvider_init self name data_order ;;;
  ret self.

(** [DataProvider.get_data]: the body is [pass]. *)
Definition DataProvider_get_data (self : instance) (product : loc) (start stop : pyval)
  : result pyval := Ok PyNone.

(* ===================================================================== *)
(** ** Collaborators of easy_provider.py that are not among the sources *)
(* ===================================================================== *)

(** Modelled from the spec: the [Product] constructor; [is_parameter],
    [parameter_type] and [icon] are optional. *)
Definition Product_new (name : string) (metadata : loc) (provider : option string)
    (uid : string) (is_parameter : bool) (parameter_type : option ParameterType)
    (icon : option string) : M loc :=
  alloc_node {| p_name := name; p_metadata := metadata; p_provider := provider;
                p_uid := uid; p_is_parameter := is_parameter;
                p_parameter_type := parameter_type; p_icon := icon;
                p_children := [] |}.

Definition write_node (l : loc) (p : Product) : M unit :=
  modify (λ w, set_nodes (<[l := p]> (nodes w)) w).

Definition write_dict (l : loc) (d : gmap string pyval) : M unit :=
  modify (λ w, set_dicts (<[l := d]> (dicts w)) w).

Definition add_child (c : loc) (p : Product) : Product :=
  {| p_name := p_name p; p_metadata := p_metadata p; p_provider := p_provider p;
     p_uid := p_uid p; p_is_parameter := p_is_parameter p;
     p_parameter_type := p_parameter_type p; p_icon := p_icon p;
     p_children := p_children p ++ [c] |}.

Definition overwrite_definition (newer older : Product) : Product :=
  {| p_name := p_name older; p_metadata := p_metadata newer;
     p_provider := p_provider newer; p_uid := p_uid newer;
     p_is_parameter := p_is_parameter newer;
     p_parameter_type := p_parameter_type newer; p_icon := p_icon newer;
     p_children := p_children older |}.

(** The child with the given name, if any: children are keyed by name. *)
Definition find_child (name : string) (children : list loc) : M (option loc) :=
  gets (λ w, List.find
               (λ c, match nodes w !! c with
                     | Some n => bool_decide (p_name n = name)
                     | None => false
                     end) children).

(** Modelled from the spec: [Product.merge], which is not among the sources.
    [self.merge(other)]: if [self] has no child named like [other], it adopts
    [other] (the object itself) as a new last child; if it has one, the
    children of [other] are merged into that child recursively, and a
    parameter definition carried by [other] overwrites the child's.  [fuel]
    bounds the depth of the recursion. *)
Fixpoint Product_merge (fuel : nat) (self other : loc) : M unit :=
  match fuel with
  | 0 => raise RecursionError
  | S fuel' =>
      s <- read_node self ;;
      o <- read_node other ;;
      existing <- find_child (p_name o) (p_children s) ;;
      match existing with
      | None => write_node self (add_child other s)
      | Some c =>
          n <- read_node c ;;
          (if p_is_parameter o then write_node c (overwrite_definition o n)
           else ret tt) ;;;
          for_each (p_children o) (λ oc, Product_merge fuel' c oc)
      end
  end.

(** Modelled from the spec: [products.add_product(path, product)] of the
    externally owned catalog registers the node under the parent path. *)
Definition products_add_product (path : string) (product : loc) : M unit :=
  modify (λ w, set_products ((path, product) :: products w) w).

(** Modelled from the spec: [make_simple_incr_name(base)] of
    [SciQLop.backend.unique_names] increments a counter kept per base name
    and appends it to the base. *)
Definition make_simple_incr_name (base : string) : M string :=
  λ w, let i := default 0 (incr_names w !! base) in
       (Ok (base +:+ pretty i),
        set_incr_names (<[base := S i]> (incr_names w)) w).

(** numpy's conversion of an object that is not an array (a list, a number,
    ...) to an array belongs to numpy; it is a parameter of the model. *)
Class Numpy := { np_array : pyval → result ndarray }.

(** [np.ascontiguousarray(a)] *)
Definition ascontiguousarray `{Numpy} (a : pyval) : result ndarray :=
  match a with
  | PyNdarray arr => Ok (nd_atleast_1d arr)
  | _ => arr ← np_array a; Ok (nd_atleast_1d arr)
  end.

(* ===================================================================== *)
(** ** easy_provider.py: build_product_hierarchy *)
(* ===================================================================== *)

(** The body of [for e in elements[1:-1]], threading [current_node]. *)
Fixpoint hierarchy_loop (fuel : nat) (provider : loc) (elements : list string)
    (current_node : loc) : M loc :=
  match elements with
  | [] => ret current_node
  | e :: rest =>
      md <- alloc_dict ∅ ;;
      prov <- DataProvider_name provider ;;
      uid <- DataProvider_name provider ;;
      new_node <- Product_new e md (Some prov) uid false None None ;;
      Product_merge fuel current_node new_node ;;;
      hierarchy_loop fuel provider rest new_node
  end.

Definition strip_leading_slash (path : string) : string :=
  if startswith slash path then str_tail path else path.

Definition build_product_hierarchy (fuel : nat) (path : string) (provider : loc)
    (parameter_type : ParameterType) (metadata : loc) : M loc :=
  let path := strip_leading_slash path in
  let elements := split slash path in
  e0 <- lift (py_first elements) ;;
  md <- alloc_dict ∅ ;;
  prov <- DataProvider_name provider ;;
  uid <- DataProvider_name provider ;;
  root_node <- Product_new e0 md (Some prov) uid false None None ;;
  current_node <- hierarchy_loop fuel provider (py_inner elements) root_node ;;
  leaf_name <- lift (py_last elements) ;;
  prov <- DataProvider_name provider ;;
  leaf_uid <- lift (py_last elements) ;;
  leaf <- Product_new leaf_name metadata (Some prov) leaf_uid true
            (Some parameter_type) None ;;
  Product_merge fuel current_node leaf ;;;
  ret root_node.

(* ===================================================================== *)
(** ** easy_provider.py: the adapters *)
(* ===================================================================== *)

Definition description (parameter_type : ParameterType) (cb : callback) : string :=
  "Virtual " +:+ ParameterType_name parameter_type +:+
  " product built from Python function: " +:+ cb_name cb.

(** [EasyProvider.__init__] *)
Definition EasyProvider_init (self : loc) (path : string) (cb : callback)
    (parameter_type : ParameterType) (metadata : loc) (data_order : DataOrder)
  : M unit :=
  name <- make_simple_incr_name (cb_name cb) ;;
  DataProvider_init self name data_order ;;;
  product_name <- lift (py_last (split slash path)) ;;
  let product_path := str_drop_last (String.length product_name) path in
  d <- read_dict metadata ;;
  write_dict metadata (<["description" := PyStr (description parameter_type cb)]> d) ;;;
  prov <- DataProvider_name self ;;
  node <- Product_new product_name metadata (Some prov) product_name true
            (Some parameter_type) (Some "Python-logo-notext") ;;
  products_add_product product_path node ;;;
  update_instance self (set__user_get_data cb).

(** [{**metadata, "components": v}]: a new dict. *)
Definition dict_with (metadata : loc) (extra : gmap string pyval → gmap string pyval)
  : M loc :=
  d <- read_dict metadata ;;
  alloc_dict (extra d).

Definition EasyScalar_init (self : loc) (path : string) (get_data_callback : callback)
    (component_name : string) (metadata : loc) (data_order : DataOrder) : M unit :=
  md <- dict_with metadata (<["components" := PyStr component_name]>) ;;
  EasyProvider_init self path get_data_callback SCALAR md data_order ;;;
  update_instance self (set__columns [component_name]).

Definition EasyVector_init (self : loc) (path : string) (get_data_callback : callback)
    (components_names : list string) (metadata : loc) (data_order : DataOrder) : M unit :=
  md <- dict_with metadata (<["components" := PyStr (join ";" components_names)]>) ;;
  EasyProvider_init self path get_data_callback VECTOR md data_order ;;;
  update_instance self (set__columns components_names).

(** [super(EasyVector, self).__init__] is [EasyProvider.__init__]:
    [EasyVector.__init__] is skipped. *)
Definition EasyMultiComponent_init (self : loc) (path : string)
    (get_data_callback : callback) (components_names : list string)
    (metadata : loc) (data_order : DataOrder) : M unit :=
  md <- dict_with metadata (<["components" := PyStr (join ";" components_names)]>) ;;
  EasyProvider_init self path get_data_callback MULTICOMPONENT md data_order ;;;
  update_instance self (set__columns components_names).

Definition EasySpectrogram_init (self : loc) (path : string)
    (get_data_callback : callback) (metadata : loc) (data_order : DataOrder) : M unit :=
  md <- dict_with metadata id ;;
  EasyProvider_init self path get_data_callback SPECTROGRAM md data_order.

(** [C(args)]: a new object, then [C.__init__]. *)
Definition construct (c : pyclass) (init : loc → M unit) : M loc :=
  self <- alloc_instance c ;;
  init self ;;;
  ret self.

Definition EasyScalar path cb component_name metadata data_order : M loc :=
  construct C_EasyScalar
    (λ self, EasyScalar_init self path cb component_name metadata data_order).

Definition EasyVector path cb components_names metadata data_order : M loc :=
  construct C_EasyVector
    (λ self, EasyVector_init self path cb components_names metadata data_order).

Definition EasyMultiComponent path cb components_names metadata data_order : M loc :=
  construct C_EasyMultiComponent
    (λ self, EasyMultiComponent_init self path cb components_names metadata data_order).

Definition EasySpectrogram path cb metadata data_order : M loc :=
  construct C_EasySpectrogram
    (λ self, EasySpectrogram_init self path cb metadata data_order).

(** Reading an attribute of an instance. *)
Definition attr {A} (name : string) (v : option A) : result A :=
  match v with
  | Some a => Ok a
  | None => Raise (AttributeError name)
  end.

(** [x, y = res] and [x, y, z = res] on a tuple. *)
Definition unpack_error (expected got : nat) : exn :=
  if (got <? expected)%nat then
    ValueError ("not enough values to unpack (expected " +:+ pretty expected +:+
                ", got " +:+ pretty got +:+ ")")
  else ValueError ("too many values to unpack (expected " +:+ pretty expected +:+ ")").

Definition unpack2 (items : list pyval) : result (pyval * pyval) :=
  match items with
  | [x; y] => Ok (x, y)
  | _ => Raise (unpack_error 2 (length items))
  end.

Definition unpack3 (items : list pyval) : result (pyval * pyval * pyval) :=
  match items with
  | [x; y; z] => Ok (x, y, z)
  | _ => Raise (unpack_error 3 (length items))
  end.

(** [a.shape[0]] *)
Definition shape0 (a : ndarray) : result nat :=
  match nd_shape a with
  | n :: _ => Ok n
  | [] => Raise (IndexError "tuple index out of range")
  end.

(** speasy's [SpeasyVariable(axes, values, columns)].  Of the constructor of
    this external library the model keeps the fields it stores and the
    check it makes on the lengths: it raises [ValueError] unless the first
    axis, the time axis, and the data have the same first dimension. *)
Definition SpeasyVariable_new (axes : list axis) (values : DataContainer)
    (columns : option (list string)) : result SpeasyVariable :=
  match axes, values with
  | time :: _, mk_DataContainer data =>
      n ← shape0 (axis_values time);
      m ← shape0 data;
      if decide (n = m) then
        Ok {| sv_axes := axes; sv_values := values; sv_columns := columns |}
      else
        Raise (ValueError
                 ("Time and data must have the same length, got time:" +:+
                  pretty n +:+ " and data:" +:+ pretty m))
  | [], _ => Raise (IndexError "list index out of range")
  end.

Section get_data.
Context `{Numpy}.

(** [EasyProvider.get_data] *)
Definition EasyProvider_get_data (self : instance) (product : loc)
    (start stop : pyval) : result pyval :=
  cb ← attr "_user_get_data" (_user_get_data self);
  cb_call cb start stop.

(** [EasyScalar.get_data] *)
Definition EasyScalar_get_data (self : instance) (product : loc)
    (start stop : pyval) : result pyval :=
  cb ← attr "_user_get_data" (_user_get_data self);
  res ← cb_call cb start stop;
  match res with
  | PySpeasyVariable _ => Ok res
  | PyTuple items =>
      '(x, y) ← unpack2 items;
      t ← ensure_dt64 x;
      values ← ascontiguousarray y;
      columns ← attr "_columns" (_columns self);
      v ← SpeasyVariable_new [VariableTimeAxis t] (mk_DataContainer values)
            (Some columns);
      Ok (PySpeasyVariable v)
  | _ => Ok PyNone
  end.

(** [EasyVector.get_data] *)
Definition EasyVector_get_data (self : instance) (product : loc)
    (start stop : pyval) : result pyval :=
  cb ← attr "_user_get_data" (_user_get_data self);
  res ← cb_call cb start stop;
  match res with
  | PySpeasyVariable _ => Ok res
  | PyTuple items =>
      '(x, y) ← unpack2 items;
      t ← ensure_dt64 x;
      values ← ascontiguousarray y;
      columns ← attr "_columns" (_columns self);
      v ← SpeasyVariable_new [VariableTimeAxis t] (mk_DataContainer values)
            (Some columns);
      Ok (PySpeasyVariable v)
  | _ => Ok PyNone
  end.

(** [EasySpectrogram.get_data] *)
Definition EasySpectrogram_get_data (self : instance) (product : loc)
    (start stop : pyval) : result pyval :=
  cb ← attr "_user_get_data" (_user_get_data self);
  res ← cb_call cb start stop;
  match res with
  | PySpeasyVariable _ => Ok res
  | PyTuple items =>
      '(x, y, z) ← unpack3 items;
      t ← ensure_dt64 x;
      secondary ← ascontiguousarray y;
      values ← ascontiguousarray z;
      v ← SpeasyVariable_new [VariableTimeAxis t; VariableAxis secondary]
            (mk_DataContainer values) None;
      Ok (PySpeasyVariable v)
  | _ => Ok PyNone
  end.

(** [self.get_data(product, start, stop)], resolved through the class of
    [self]: [EasyMultiComponent] defines no [get_data] and inherits the one
    of [EasyVector]. *)
Definition get_data (self : instance) (product : loc) (start stop : pyval)
  : result pyval :=
  match i_class self with
  | C_DataProvider => DataProvider_get_data self product start stop
  | C_EasyProvider => EasyProvider_get_data self product start stop
  | C_EasyScalar => EasyScalar_get_data self product start stop
  | C_EasyVector => EasyVector_get_data self product start stop
  | C_EasyMultiComponent => EasyVector_get_data self product start stop
  | C_EasySpectrogram => EasySpectrogram_get_data self product start stop
  end.
End get_data.

(** The four shape adapters. *)
Definition shape_adapter (c : pyclass) : bool :=
  match c with
  | C_EasyScalar | C_EasyVector | C_EasyMultiComponent | C_EasySpectrogram => true
  | C_DataProvider | C_EasyProvider => false
  end.

(** The inputs [ensure_dt64] accepts: an [ndarray] (exactly) of
    nanosecond timestamps or of 64-bit floats. *)
Definition axis_supported (x_data : pyval) : bool :=
  match x_data with
  | PyNdarray a =>
      bool_decide (nd_dtype a = dt_datetime64 unit_ns) ||
      bool_decide (nd_dtype a = dt_float64)
  | _ => false
  end.

(** [res] has exactly the type [SpeasyVariable] or [tuple]. *)
Definition variable_or_tuple (res : pyval) : bool :=
  match res with
  | PySpeasyVariable _ | PyTuple _ => true
  | _ => false
  end.

Definition f64s (l : list Z) : list f64 := map f64_of_Z l.

(** A small instance of the numpy parameter, for concrete runs: Python
    numbers become 0-d arrays, nothing else is converted. *)
Definition numpy_numbers : Numpy :=
  {| np_array := λ v,
       match v with
       | PyFloat f => Ok (mk_ndarray [] (buf_float64 [f]))
       | PyInt z => Ok (mk_ndarray [] (buf_int64 [z]))
       | _ => Raise (TypeError "not converted")
       end |}.

(** A provider instance as the constructors leave it. *)
Definition adapter (c : pyclass) (name : string) (order : DataOrder) (cb : callback)
    (columns : option (list string)) : instance :=
  {| i_class := c; _name := Some name; _data_order := Some order;
     _user_get_data := Some cb; _columns := columns |}.

(** Callbacks for concrete runs. *)
Definition cb_returning (res : pyval) : callback :=
  {| cb_name := "f"; cb_call := λ _ _, Ok res |}.

Definition cb_raising (e : exn) : callback :=
  {| cb_name := "f"; cb_call := λ _ _, Raise e |}.

(** The instance [DataProvider.__init__] leaves behind. *)
Definition adapter_base (c : pyclass) (name : string) (order : DataOrder) : instance :=
  {| i_class := c; _name := Some name; _data_order := Some order;
     _user_get_data := None; _columns := None |}.

(** The provider registered under [name], if any. *)
Definition registered (name : string) (w : world) : option loc :=
  reg ← providers w; reg !! name.

Definition empty_world : world :=
  {| providers := Some ∅; instances := ∅; dicts := ∅; nodes := ∅;
     products := []; incr_names := ∅ |}.

(** No occurrence of the separator. *)
Fixpoint no_sep (sep : ascii) (s : string) : bool :=
  match s with
  | EmptyString => true
  | String c s' => negb (bool_decide (c = sep)) && no_sep sep s'
  end.

(** The two kinds of nodes [build_product_hierarchy] creates. *)
Definition namespace_node (name : string) (md : loc) (pname : string)
    (children : list loc) : Product :=
  {| p_name := name; p_metadata := md; p_provider := Some pname; p_uid := pname;
     p_is_parameter := false; p_parameter_type := None; p_icon := None;
     p_children := children |}.

Definition leaf_node (name : string) (md : loc) (pname : string)
    (t : ParameterType) : Product :=
  {| p_name := name; p_metadata := md; p_provider := Some pname; p_uid := name;
     p_is_parameter := true; p_parameter_type := Some t; p_icon := None;
     p_children := [] |}.

(** The tree below a node, read from the store: a chain of namespace
    nodes, each with an empty metadata dict and one child, down to one
    parameter leaf.  The list gives the node names from the top. *)
Inductive hierarchy (w : world) (pname : string) (t : ParameterType) (metadata : loc)
  : loc → list string → Prop :=
| hierarchy_leaf l name :
    nodes w !! l = Some (leaf_node name metadata pname t) →
    hierarchy w pname t metadata l [name]
| hierarchy_namespace l name md c rest :
    nodes w !! l = Some (namespace_node name md pname [c]) →
    dicts w !! md = Some ∅ →
    hierarchy w pname t metadata c rest →
    hierarchy w pname t metadata l (name :: rest).

(** The nodes of the tree below a node: the node, and the nodes of the
    trees below its children. *)
Inductive reachable (w : world) : loc → loc → Prop :=
| reachable_here l : reachable w l l
| reachable_child l n c l' :
    nodes w !! l = Some n → c ∈ p_children n → reachable w c l' →
    reachable w l l'.

(** What a node of a built tree carries: the provider name in every case;
    a parameter has the parameter type and the caller's metadata and no
    child; any other node has no parameter type, an empty metadata dict and
    one child. *)
Definition node_content (w : world) (pname : string) (t : ParameterType)
    (metadata : loc) (n : Product) : Prop :=
  p_provider n = Some pname ∧
  if p_is_parameter n then
    p_parameter_type n = Some t ∧ p_metadata n = metadata ∧ p_children n = []
  else
    p_parameter_type n = None ∧ dicts w !! p_metadata n = Some ∅ ∧
    length (p_children n) = 1.

(** The names of the nodes built for a list of path elements: the first,
    those strictly between the first and the last, the last. *)
Definition node_names (elements : list string) : list string :=
  match elements, last elements with
  | e0 :: _, Some leaf => e0 :: py_inner elements ++ [leaf]
  | _, _ => []
  end.

(** The end of [build_product_hierarchy], from the creation of the leaf. *)
Definition attach_leaf (fuel : nat) (provider : loc) (elements : list string)
    (parameter_type : ParameterType) (metadata : loc) (root_node current_node : loc)
  : M loc :=
  leaf_name <- lift (py_last elements) ;;
  prov <- DataProvider_name provider ;;
  leaf_uid <- lift (py_last elements) ;;
  leaf <- Product_new leaf_name metadata (Some prov) leaf_uid true
            (Some parameter_type) None ;;
  Product_merge fuel current_node leaf ;;;
  ret root_node.

(** What [build_product_hierarchy] leaves unchanged: the nodes and dicts
    that existed before ([except] one node), and the rest of the store. *)
Definition preserved (except : option loc) (w w' : world) : Prop :=
  (∀ l, l ∈ dom (nodes w) → Some l ≠ except → nodes w' !! l = nodes w !! l) ∧
  (∀ l, l ∈ dom (dicts w) → dicts w' !! l = dicts w !! l) ∧
  instances w' = instances w ∧ providers w' = providers w ∧
  products w' = products w ∧ incr_names w' = incr_names w.

(** A store for concrete runs: one provider named [p], one metadata dict. *)
Definition sample_world : world :=
  {| providers := Some {[ "p" := 1%positive ]};
     instances := {[ 1%positive := adapter_base C_DataProvider "p" X_FIRST ]};
     dicts := {[ 1%positive := {[ "units" := PyStr "nT" ]} ]};
     nodes := ∅; products := []; incr_names := ∅ |}.

(** The last element of [path.split('/')]. *)
Definition last_segment (path : string) : string :=
  default EmptyString (last (split slash path)).

(** The four shape adapters and what tells them apart: the class, the
    parameter type, the entries added to the copy of the metadata before
    [EasyProvider.__init__] runs, and the columns. *)
Inductive shape :=
| Scalar (component_name : string)
| Vector (components_names : list string)
| MultiComponent (components_names : list string)
| Spectrogram.

Definition shape_class (s : shape) : pyclass :=
  match s with
  | Scalar _ => C_EasyScalar
  | Vector _ => C_EasyVector
  | MultiComponent _ => C_EasyMultiComponent
  | Spectrogram => C_EasySpectrogram
  end.

Definition shape_parameter_type (s : shape) : ParameterType :=
  match s with
  | Scalar _ => SCALAR
  | Vector _ => VECTOR
  | MultiComponent _ => MULTICOMPONENT
  | Spectrogram => SPECTROGRAM
  end.

Definition shape_extra (s : shape) (d : gmap string pyval) : gmap string pyval :=
  match s with
  | Scalar c => <["components" := PyStr c]> d
  | Vector cs | MultiComponent cs => <["components" := PyStr (join ";" cs)]> d
  | Spectrogram => d
  end.

Definition shape_columns (s : shape) : option (list string) :=
  match s with
  | Scalar c => Some [c]
  | Vector cs | MultiComponent cs => Some cs
  | Spectrogram => None
  end.

Definition new_adapter (s : shape) (path : string) (cb : callback) (metadata : loc)
    (data_order : DataOrder) : M loc :=
  match s with
  | Scalar c => EasyScalar path cb c metadata data_order
  | Vector cs => EasyVector path cb cs metadata data_order
  | MultiComponent cs => EasyMultiComponent path cb cs metadata data_order
  | Spectrogram => EasySpectrogram path cb metadata data_order
  end.

(** The name [make_simple_incr_name] derives for a callback. *)
Definition derived_name (cb : callback) (w : world) : string :=
  cb_name cb +:+ pretty (default 0 (incr_names w !! cb_name cb)).

(** The product node an adapter registers. *)
Definition product_node (path : string) (md : loc) (name : string)
    (t : ParameterType) : Product :=
  {| p_name := last_segment path; p_metadata := md; p_provider := Some name;
     p_uid := last_segment path; p_is_parameter := true;
     p_parameter_type := Some t; p_icon := Some "Python-logo-notext";
     p_children := [] |}.

(** The store after a successful construction of an adapter of shape [s]
    from the store [w], whose registry is [reg] and where the caller's
    metadata dict holds [d]. *)
Definition constructed (s : shape) (path : string) (cb : callback)
    (data_order : DataOrder) (reg : gmap string loc) (d : gmap string pyval)
    (w : world) : world :=
  let self := fresh (dom (instances w)) in
  let md := fresh (dom (dicts w)) in
  let node := fresh (dom (nodes w)) in
  let name := derived_name cb w in
  {| providers := Some (<[name := self]> reg);
     instances :=
       <[self := adapter (shape_class s) name data_order cb (shape_columns s)]>
         (instances w);
     dicts :=
       <[md := <["description" := PyStr (description (shape_parameter_type s) cb)]>
                 (shape_extra s d)]> (dicts w);
     nodes := <[node := product_node path md name (shape_parameter_type s)]> (nodes w);
     products :=
       (str_drop_last (String.length (last_segment path)) path, node) :: products w;
     incr_names :=
       <[cb_name cb := S (default 0 (incr_names w !! cb_name cb))]> (incr_names w) |}.

(** Values for concrete runs. *)
Definition boom : exn := UserException "boom".
Definition sample_x : ndarray := mk_ndarray [2] (buf_float64 (f64s [0; 60]%Z)).
Definition sample_y : ndarray := mk_ndarray [3] (buf_float64 (f64s [1; 10; 100]%Z)).
Definition sample_z : ndarray :=
  mk_ndarray [2; 3] (buf_float64 (f64s [1; 2; 3; 4; 5; 6]%Z)).
Definition seconds_012 : pyval :=
  PyNdarray (mk_ndarray [3] (buf_float64 (f64s [0; 1; 2]%Z))).
Definition data_10_20_30 : ndbuffer := buf_float64 (f64s [10; 20; 30]%Z).

(* ===================================================================== *)
(** ** More of data_provider.py and easy_provider.py *)
(* ===================================================================== *)

(** The [data_order] property. *)
Definition DataProvider_data_order (self : loc) : M DataOrder :=
  getattr "_data_order" _data_order self.

(** [EasyProvider(path, callback, parameter_type, metadata, data_order)]: the
    base class of the adapters, constructed directly. *)
Definition EasyProvider (path : string) (cb : callback) (parameter_type : ParameterType)
    (metadata : loc) (data_order : DataOrder) : M loc :=
  construct C_EasyProvider
    (λ self, EasyProvider_init self path cb parameter_type metadata data_order).

(** Everything in the store but the registry. *)
Definition same_objects (w w' : world) : Prop :=
  instances w' = instances w ∧ dicts w' = dicts w ∧ nodes w' = nodes w ∧
  products w' = products w ∧ incr_names w' = incr_names w.

(** The number of elements of a buffer. *)
Definition buf_size (b : ndbuffer) : nat :=
  match b with
  | buf_datetime64 _ l => length l
  | buf_float64 l => length l
  | buf_int64 l => length l
  | buf_str l => length l
  | buf_other _ n => n
  end.

(** The adapters with one axis: their [get_data] expects a pair. *)
Definition one_axis_adapter (c : pyclass) : bool :=
  match c with
  | C_EasyScalar | C_EasyVector | C_EasyMultiComponent => true
  | _ => false
  end.

(** The number of elements the tuple branch of [get_data] unpacks. *)
Definition expected_arity (c : pyclass) : nat :=
  match c with
  | C_EasySpectrogram => 3
  | _ => 2
  end.

Definition f64_is_nan (f : f64) : bool :=
  match f with
  | S754_nan => true
  | _ => false
  end.

Definition f64_is_zero (f : f64) : bool :=
  match f with
  | S754_zero _ => true
  | _ => false
  end.

(* ===================================================================== *)
(** ** plugins/catalogs/catalogs.py: the pure helpers *)
(* ===================================================================== *)

(** A tscat catalogue, as far as the helpers read it.  A catalogue object
    is truthy; the entries of a selector's list and its selection are
    [None] or a catalogue. *)
Record catalogue := mk_catalogue {
  cat_name : string;
  cat_uuid : string
}.

Definition catalog_display_txt (catalog : option catalogue) : string :=
  match catalog with
  | Some c => cat_name c
  | None => "None"
  end.

(** The loop of [index_of]: [Some index] when it returns from inside the
    loop, [None] when the loop ends. *)
Fixpoint index_of_loop (catalog : catalogue) (catalogs : list (option catalogue))
    (index : nat) : option nat :=
  match catalogs with
  | [] => None
  | c :: rest =>
      match c with
      | Some c' =>
          if bool_decide (cat_uuid c' = cat_uuid catalog) then Some index
          else index_of_loop catalog rest (S index)
      | None => index_of_loop catalog rest (S index)
      end
  end.

Definition index_of (catalogs : list (option catalogue)) (catalog : option catalogue)
  : nat :=
  match catalog with
  | Some cat =>
      match index_of_loop cat catalogs 0 with
      | Some index => index
      | None => 0
      end
  | None => 0
  end.

(** Naive [datetime] and [timedelta] values, as Python stores them: whole
    microseconds, since 0001-01-01T00:00 for a datetime. *)
Record datetime := mk_datetime { dt_us : Z }.
Record timedelta := mk_timedelta { td_us : Z }.

Definition us_per_day : Z := 86400 * 1000000.

(** [datetime.max] is 9999-12-31T23:59:59.999999, day 3652059 of the
    calendar. *)
Definition datetime_valid (d : datetime) : Prop :=
  (0 ≤ dt_us d < 3652059 * us_per_day)%Z.

(** A timedelta spans at most 999999999 days on either side. *)
Definition timedelta_valid (t : timedelta) : Prop :=
  (- 999999999 * us_per_day ≤ td_us t < 1000000000 * us_per_day)%Z.

#[global] Instance datetime_valid_dec d : Decision (datetime_valid d).
Proof. unfold datetime_valid. apply _. Defined.
#[global] Instance timedelta_valid_dec t : Decision (timedelta_valid t).
Proof. unfold timedelta_valid. apply _. Defined.

(** The exceptions of the date arithmetic. *)
Inductive time_exn :=
| OverflowError (msg : string)
| RatioValueError (msg : string)
| ZeroDivisionError.

Inductive computed (A : Type) :=
| Done (a : A)
| Fails (e : time_exn).
Arguments Done {A} a.
Arguments Fails {A} e.

Definition computed_bind {A B} (f : A → computed B) (r : computed A) : computed B :=
  match r with
  | Done a => f a
  | Fails e => Fails e
  end.

#[global] Instance computed_mret : MRet computed := @Done.
#[global] Instance computed_mbind : MBind computed := @computed_bind.

Definition new_timedelta (us : Z) : computed timedelta :=
  if decide (timedelta_valid (mk_timedelta us)) then Done (mk_timedelta us)
  else Fails (OverflowError "days; must have magnitude <= 999999999").

Definition new_datetime (us : Z) : computed datetime :=
  if decide (datetime_valid (mk_datetime us)) then Done (mk_datetime us)
  else Fails (OverflowError "date value out of range").

(** The largest power of two dividing a mantissa, bounded by [k]. *)
Fixpoint reduce_ratio (m : positive) (k : nat) : positive * nat :=
  match k, m with
  | S k', xO m' => reduce_ratio m' k'
  | _, _ => (m, k)
  end.

(** [float.as_integer_ratio()]: the exact value as a fraction in lowest
    terms with a positive denominator. *)
Definition as_integer_ratio (f : f64) : computed (Z * Z) :=
  match f with
  | S754_zero _ => Done (0, 1)%Z
  | S754_finite s m e =>
      match e with
      | Zneg p =>
          let '(m', k) := reduce_ratio m (Pos.to_nat p) in
          Done (if s then Zneg m' else Zpos m', 2 ^ Z.of_nat k)%Z
      | _ => Done ((if s then Zneg m else Zpos m) * 2 ^ e, 1)%Z
      end
  | S754_nan => Fails (RatioValueError "cannot convert NaN to integer ratio")
  | S754_infinity _ =>
      Fails (OverflowError "cannot convert Infinity to integer ratio")
  end.

(** The quotient of [a] by [b] rounded to the nearest integer, ties to the
    even one ([divmod] rounds toward minus infinity, as [Z.div] does). *)
Definition divide_nearest (a b : Z) : computed Z :=
  if decide (b = 0)%Z then Fails ZeroDivisionError
  else
    let q := (a / b)%Z in
    let r := (2 * (a mod b))%Z in
    let greater_than_half := if decide (0 < b)%Z then bool_decide (b < r)%Z
                             else bool_decide (r < b)%Z in
    if greater_than_half || (bool_decide (r = b) && Z.odd q) then Done (q + 1)%Z
    else Done q.

(** [stop - start] of two naive datetimes. *)
Definition datetime_sub (stop start : datetime) : computed timedelta :=
  new_timedelta (dt_us stop - dt_us start).

(** [delta / f] and [delta * f] for a float [f]. *)
Definition timedelta_truediv (delta : timedelta) (f : f64) : computed timedelta :=
  '(num, den) ← as_integer_ratio f;
  us ← divide_nearest (td_us delta * den) num;
  new_timedelta us.

Definition timedelta_mul (delta : timedelta) (f : f64) : computed timedelta :=
  '(num, den) ← as_integer_ratio f;
  us ← divide_nearest (td_us delta * num) den;
  new_timedelta us.

Definition datetime_minus (d : datetime) (delta : timedelta) : computed datetime :=
  new_datetime (dt_us d - td_us delta).

Definition datetime_plus (d : datetime) (delta : timedelta) : computed datetime :=
  new_datetime (dt_us d + td_us delta).

Definition f64_two : f64 := Eval vm_compute in f64_of_Z 2.

Definition zoom_out (start stop : datetime) (factor : f64)
  : computed (datetime * datetime) :=
  width ← datetime_sub stop start;
  half ← timedelta_truediv width f64_two;
  delta ← timedelta_mul half factor;
  new_start ← datetime_minus start delta;
  new_stop ← datetime_plus stop delta;
  Done (new_start, new_stop).

(** A float that is not negative: a zero of either sign or a positive
    finite value. *)
Definition f64_nonneg (f : f64) : bool :=
  match f with
  | S754_zero _ => true
  | S754_finite s _ _ => negb s
  | _ => false
  end.

(* ===================================================================== *)
(** ** backend/sciqlop_application.py: the quick-start shortcuts *)
(* ===================================================================== *)

(** The entry stored for a shortcut; the icon and the callback are opaque
    objects, known by an identifier. *)
Record shortcut := mk_shortcut {
  sc_name : string;
  sc_description : string;
  sc_icon : nat;
  sc_callback : nat
}.

(** A Python dict with string keys, in insertion order. *)
Fixpoint dict_set {V} (k : string) (v : V) (d : list (string * V)) : list (string * V) :=
  match d with
  | [] => [(k, v)]
  | (k', v') :: rest =>
      if bool_decide (k' = k) then (k, v) :: rest
      else (k', v') :: dict_set k v rest
  end.

Fixpoint dict_get {V} (k : string) (d : list (string * V)) : option V :=
  match d with
  | [] => None
  | (k', v') :: rest => if bool_decide (k' = k) then Some v' else dict_get k rest
  end.

Definition dict_keys {V} (d : list (string * V)) : list string := d.*1.

(** The part of [SciQLopApp] the shortcut methods work on: the dict, and
    the names the signal [quickstart_shortcuts_added] was emitted with,
    latest first. *)
Record SciQLopApp := mk_SciQLopApp {
  _quickstart_shortcuts : list (string * shortcut);
  quickstart_shortcuts_added : list string
}.

(** The state [__init__] leaves. *)
Definition new_SciQLopApp : SciQLopApp :=
  {| _quickstart_shortcuts := []; quickstart_shortcuts_added := [] |}.

Definition add_quickstart_shortcut (self : SciQLopApp) (name description : string)
    (icon callback : nat) : SciQLopApp :=
  {| _quickstart_shortcuts :=
       dict_set name
         {| sc_name := name; sc_description := description; sc_icon := icon;
            sc_callback := callback |}
         (_quickstart_shortcuts self);
     quickstart_shortcuts_added := name :: quickstart_shortcuts_added self |}.

Definition quickstart_shortcuts (self : SciQLopApp) : list string :=
  dict_keys (_quickstart_shortcuts self).

Definition quickstart_shortcut (self : SciQLopApp) (name : string) : option shortcut :=
  dict_get name (_quickstart_shortcuts self).

(* ===================================================================== *)
(** ** widgets/plots/mpl_panel.py: access to the plots of a panel *)
(* ===================================================================== *)

(** A widget of the plot container: whether it is an [MPLFigure], and
    which object it is. *)
Record widget := mk_widget {
  is_MPLFigure : bool;
  widget_id : nat
}.

(** [l[index]] on a Python list. *)
Definition py_getitem {A} (l : list A) (index : Z) : result A :=
  let n := Z.of_nat (length l) in
  let i := if decide (index < 0)%Z then (index + n)%Z else index in
  if decide (0 ≤ i < n)%Z then
    match l !! Z.to_nat i with
    | Some x => Ok x
    | None => Raise (IndexError "list index out of range")
    end
  else Raise (IndexError "list index out of range").

(** [MPLPanel.child_at(row)] over the plots of the container. *)
Definition child_at (plots : list widget) (row : Z) : option widget :=
  if decide (0 ≤ row < Z.of_nat (length plots))%Z then plots !! Z.to_nat row
  else None.

(** [MPLPanel.__getitem__(index)] *)
Definition MPLPanel_getitem (plots : list widget) (index : Z) : result widget :=
  py_getitem (filter (λ w, is_MPLFigure w = true) plots) index.

(** The app after a sequence of [add_quickstart_shortcut] calls, given as
    (name, description, icon, callback), on a new app. *)
Definition after_additions (calls : list (string * string * nat * nat)) : SciQLopApp :=
  foldl (λ app '(name, description, icon, callback),
           add_quickstart_shortcut app name description icon callback)
    new_SciQLopApp calls.

(** Values for concrete runs. *)
Definition ace : catalogue := {| cat_name := "ACE shocks"; cat_uuid := "u-ace" |}.
Definition mms : catalogue := {| cat_name := "MMS crossings"; cat_uuid := "u-mms" |}.
Definition mms_renamed : catalogue := {| cat_name := "MMS"; cat_uuid := "u-mms" |}.
Definition f64_0_3 : f64 := S754_finite false 5404319552844595 (-54).
Definition noon : datetime := mk_datetime (730000 * us_per_day + 43200000000).
Definition one_pm : datetime := mk_datetime (730000 * us_per_day + 46800000000).

(* ===================================================================== *)
(** * Properties *)
(* ===================================================================== *)

(** ** The axis normalizer *)

Lemma ensure_dt64_datetime a :
  nd_dtype a = dt_datetime64 unit_ns → ensure_dt64 (PyNdarray a) = Ok a.
Proof. intros Hd. unfold ensure_dt64. by rewrite decide_True. Qed.

Lemma ensure_dt64_float shape l :
  ensure_dt64 (PyNdarray (mk_ndarray shape (buf_float64 l))) =
  Ok (mk_ndarray shape
        (buf_datetime64 unit_ns
           (map (λ s, f64_to_datetime64 (f64_mul s f64_1e9)) l))).
Proof.
  unfold ensure_dt64, nd_dtype, nd_astype_datetime64_ns. simpl.
  by rewrite map_map.
Qed.

Lemma ensure_dt64_unsupported v :
  axis_supported v = false →
  ensure_dt64 v = Raise (ValueError ("can't handle x axis type " +:+ type_repr v)).
Proof.
  destruct v; try reflexivity.
  simpl. intros [H1 H2]%orb_false_iff.
  apply bool_decide_eq_false in H1, H2.
  by rewrite !decide_False.
Qed.

Lemma ensure_dt64_supported v t :
  ensure_dt64 v = Ok t → axis_supported v = true.
Proof.
  destruct (axis_supported v) eqn:E; [done|].
  by rewrite ensure_dt64_unsupported.
Qed.

(** Normalizing keeps the shape and yields nanosecond timestamps. *)
Lemma ensure_dt64_shape v t :
  ensure_dt64 v = Ok t →
  ∃ a, v = PyNdarray a ∧ nd_shape t = nd_shape a ∧ nd_dtype t = dt_datetime64 unit_ns.
Proof.
  destruct v as [| | | | | | |a| |]; try discriminate.
  destruct a as [sh buf]. unfold ensure_dt64, nd_dtype. simpl.
  unfold nd_astype_datetime64_ns.
  destruct buf as [u l|l|l|l|n s]; [destruct u|..]; simpl;
    try discriminate; intros [= <-]; eauto.
Qed.

(** Fractions of a second are kept down to the nanosecond, the conversion
    truncates toward zero, and NaN and the infinities become NaT. *)
Example ensure_dt64_fractions :
  ensure_dt64
    (PyNdarray
       (mk_ndarray [5]
          (buf_float64
             [binary_normalize f64_prec f64_emax 3 (-1) false;
              binary_normalize f64_prec f64_emax (-1) (-2) false;
              binary_normalize f64_prec f64_emax (-7) (-33) false;
              S754_nan; S754_infinity false]))) =
  Ok (mk_ndarray [5]
        (buf_datetime64 unit_ns [1500000000; -250000000; 0; NaT; NaT]%Z)).
Proof. vm_compute. reflexivity. Qed.

(** C3. [ensure_dt64] (the time-axis normalizer) has three cases: an array
    of nanosecond timestamps is returned as it is; an array of 64-bit
    floats (seconds) is returned with every element multiplied by [1e9] in
    binary64 and converted to a nanosecond timestamp, the shape kept; any
    other input raises the [ValueError] that reports the unsupported axis
    type, and no value is returned. *)
Theorem ensure_dt64_cases :
  (∀ a, nd_dtype a = dt_datetime64 unit_ns → ensure_dt64 (PyNdarray a) = Ok a) ∧
  (∀ shape l,
     ensure_dt64 (PyNdarray (mk_ndarray shape (buf_float64 l))) =
     Ok (mk_ndarray shape
           (buf_datetime64 unit_ns
              (map (λ s, f64_to_datetime64 (f64_mul s f64_1e9)) l)))) ∧
  (∀ v, axis_supported v = false →
        ∃ msg, ensure_dt64 v = Raise (ValueError msg)).
Proof.
  split; [exact ensure_dt64_datetime|].
  split; [exact ensure_dt64_float|].
  intros v Hv. eexists. by apply ensure_dt64_unsupported.
Qed.

Lemma ensure_dt64_cases_witness :
  ensure_dt64 (PyNdarray (mk_ndarray [2] (buf_datetime64 unit_ns [5; 7]%Z))) =
    Ok (mk_ndarray [2] (buf_datetime64 unit_ns [5; 7]%Z)) ∧
  ensure_dt64 (PyNdarray (mk_ndarray [3] (buf_float64 (f64s [0; 1; 2]%Z)))) =
    Ok (mk_ndarray [3] (buf_datetime64 unit_ns [0; 1000000000; 2000000000]%Z)) ∧
  ∃ msg, ensure_dt64 (PyList [PyStr "a"; PyStr "b"]) = Raise (ValueError msg).
Proof.
  destruct ensure_dt64_cases as (H1 & H2 & H3).
  split; [apply H1; reflexivity|].
  split; [rewrite H2; vm_compute; reflexivity|].
  apply H3. reflexivity.
Defined.

(** ** Fetching through the adapters *)

(** The constructor of a variable succeeds when the time axis and the data
    have the same first dimension. *)
Lemma SpeasyVariable_new_ok time rest data columns n s1 s2 :
  nd_shape (axis_values time) = n :: s1 →
  nd_shape data = n :: s2 →
  SpeasyVariable_new (time :: rest) (mk_DataContainer data) columns =
    Ok {| sv_axes := time :: rest; sv_values := mk_DataContainer data;
          sv_columns := columns |}.
Proof.
  intros Ht Hd. unfold SpeasyVariable_new, shape0. rewrite Ht, Hd. simpl.
  by rewrite decide_True.
Qed.

Section fetch.
Context `{Numpy}.

#[local] Arguments ensure_dt64 : simpl never.
#[local] Arguments SpeasyVariable_new : simpl never.

(** What every shape adapter does first: call the user callback. *)
Lemma get_data_raises self cb product start stop e :
  shape_adapter (i_class self) = true →
  _user_get_data self = Some cb →
  cb_call cb start stop = Raise e →
  get_data self product start stop = Raise e.
Proof.
  intros Hc Hcb He. unfold get_data.
  destruct (i_class self); try discriminate;
    unfold EasyScalar_get_data, EasyVector_get_data, EasySpectrogram_get_data;
    rewrite Hcb; simpl; by rewrite He.
Qed.

Lemma get_data_variable self cb product start stop v :
  shape_adapter (i_class self) = true →
  _user_get_data self = Some cb →
  cb_call cb start stop = Ok (PySpeasyVariable v) →
  get_data self product start stop = Ok (PySpeasyVariable v).
Proof.
  intros Hc Hcb He. unfold get_data.
  destruct (i_class self); try discriminate;
    unfold EasyScalar_get_data, EasyVector_get_data, EasySpectrogram_get_data;
    rewrite Hcb; simpl; by rewrite He.
Qed.

Lemma get_data_other self cb product start stop res :
  shape_adapter (i_class self) = true →
  _user_get_data self = Some cb →
  cb_call cb start stop = Ok res →
  variable_or_tuple res = false →
  get_data self product start stop = Ok PyNone.
Proof.
  intros Hc Hcb He Hres. unfold get_data.
  destruct (i_class self); try discriminate;
    unfold EasyScalar_get_data, EasyVector_get_data, EasySpectrogram_get_data;
    rewrite Hcb; simpl; rewrite He; simpl; by destruct res.
Qed.

(** A tuple that does not have two elements makes [x, y = res] raise. *)
Lemma EasyScalar_get_data_arity self cb product start stop items :
  _user_get_data self = Some cb →
  cb_call cb start stop = Ok (PyTuple items) →
  length items ≠ 2 →
  EasyScalar_get_data self product start stop =
    Raise (unpack_error 2 (length items)).
Proof.
  intros Hcb He Hlen. unfold EasyScalar_get_data.
  rewrite Hcb. simpl. rewrite He. simpl.
  destruct items as [|x [|y [|z items]]]; simpl in *; congruence.
Qed.

(** C2, as the code has it.  When the wrapped user callback raises, the
    fetch of every shape adapter raises that same exception: nothing in
    the adapters catches it, and no value (so no [None]) is returned. *)
Theorem get_data_propagates self cb product start stop e :
  shape_adapter (i_class self) = true →
  _user_get_data self = Some cb →
  cb_call cb start stop = Raise e →
  get_data self product start stop = Raise e ∧
  get_data self product start stop ≠ Ok PyNone.
Proof.
  intros Hc Hcb He.
  rewrite (get_data_raises self cb product start stop e) by done. done.
Qed.

(** C5, as the code has it.  When the callback returns a value whose
    type is neither [SpeasyVariable] nor [tuple] (a single number, say),
    the fetch of every shape adapter returns [None] and does not raise. *)
Theorem get_data_unrecognized self cb product start stop res :
  shape_adapter (i_class self) = true →
  _user_get_data self = Some cb →
  cb_call cb start stop = Ok res →
  variable_or_tuple res = false →
  get_data self product start stop = Ok PyNone.
Proof. apply get_data_other. Qed.

(** C7.  A spectrogram adapter whose callback returns [(x, y, z)], with
    [x] an array of supported time type and [len(x) = T], [len(y) = F]
    and [z] of shape [T × F], returns a variable with two axes, the time
    axis [ensure_dt64(x)], of length [T] and in nanosecond timestamps,
    and [y] itself, of length [F], not normalized; with the data block
    [z], of shape [T × F]; and without column names. *)
Theorem EasySpectrogram_fetch self cb product start stop x y z T F :
  i_class self = C_EasySpectrogram →
  _user_get_data self = Some cb →
  cb_call cb start stop = Ok (PyTuple [PyNdarray x; PyNdarray y; PyNdarray z]) →
  axis_supported (PyNdarray x) = true →
  nd_len x = Ok T →
  nd_len y = Ok F →
  nd_shape z = [T; F] →
  ∃ t,
    ensure_dt64 (PyNdarray x) = Ok t ∧
    nd_len t = Ok T ∧
    nd_dtype t = dt_datetime64 unit_ns ∧
    get_data self product start stop =
      Ok (PySpeasyVariable
            {| sv_axes := [VariableTimeAxis t; VariableAxis y];
               sv_values := mk_DataContainer z;
               sv_columns := None |}).
Proof.
  intros Hc Hcb He Hx HT HF Hz.
  destruct (ensure_dt64 (PyNdarray x)) as [t|e] eqn:Ht.
  2:{ destruct (axis_supported (PyNdarray x)) eqn:E; [|done].
      exfalso. revert Ht. unfold ensure_dt64. simpl in E.
      apply orb_true_iff in E as [E|E]; apply bool_decide_eq_true in E.
      - by rewrite decide_True.
      - destruct x as [sh [u l|l|l|l|n s]]; discriminate. }
  exists t. destruct (ensure_dt64_shape _ _ Ht) as (a & [= <-] & Hsh & Hdt).
  split; [done|]. split; [by unfold nd_len; rewrite Hsh|]. split; [done|].
  unfold get_data. rewrite Hc. unfold EasySpectrogram_get_data.
  rewrite Hcb. simpl. rewrite He. simpl. rewrite Ht. simpl.
  unfold nd_atleast_1d. rewrite Hz.
  unfold nd_len in HT, HF.
  destruct (nd_shape x) as [|T' sx] eqn:Hsx; [discriminate|].
  injection HT as ->.
  destruct (nd_shape y); [discriminate|].
  rewrite (SpeasyVariable_new_ok _ _ _ _ T sx [F]); [done|simpl; congruence|done].
Qed.

(** C8.  A scalar adapter whose callback returns the seconds
    [x = [0, 1, 2]] (64-bit floats) with a data array [y] of three
    elements returns a variable whose time axis is
    [[0, 1e9, 2e9]] nanoseconds, with the configured component name as
    its one column and [y] as its data; and a callback result that is
    already a variable is returned as it is. *)
Theorem EasyScalar_fetch self cb component product start stop :
  i_class self = C_EasyScalar →
  _user_get_data self = Some cb →
  _columns self = Some [component] →
  (∀ ybuf,
     cb_call cb start stop =
       Ok (PyTuple [PyNdarray (mk_ndarray [3] (buf_float64 (f64s [0; 1; 2]%Z)));
                    PyNdarray (mk_ndarray [3] ybuf)]) →
     get_data self product start stop =
       Ok (PySpeasyVariable
             {| sv_axes :=
                  [VariableTimeAxis
                     (mk_ndarray [3]
                        (buf_datetime64 unit_ns
                           [0; 1000000000; 2000000000]%Z))];
                sv_values := mk_DataContainer (mk_ndarray [3] ybuf);
                sv_columns := Some [component] |})) ∧
  (∀ v,
     cb_call cb start stop = Ok (PySpeasyVariable v) →
     get_data self product start stop = Ok (PySpeasyVariable v)).
Proof.
  intros Hc Hcb Hcol. split.
  - intros ybuf He. unfold get_data. rewrite Hc. unfold EasyScalar_get_data.
    rewrite Hcb. simpl. rewrite He. simpl. rewrite Hcol.
    change (ensure_dt64 _) with
      (Ok (A:=ndarray)
         (mk_ndarray [3]
            (buf_datetime64 unit_ns [0; 1000000000; 2000000000]%Z))).
    reflexivity.
  - intros v He. apply (get_data_variable self cb); [by rewrite Hc|done..].
Qed.

(** The fetch of a multi-component adapter is the one of a vector
    adapter with the same attributes. *)
Lemma get_data_multicomponent name order cb columns product start stop :
  get_data (adapter C_EasyMultiComponent name order cb columns) product start stop =
  get_data (adapter C_EasyVector name order cb columns) product start stop.
Proof. reflexivity. Qed.
End fetch.

(** ** The provider registry *)

Lemma bind_ok {A B} (m : M A) (f : A → M B) w a w1 :
  m w = (Ok a, w1) → bind m f w = f a w1.
Proof. intros Hm. unfold bind. by rewrite Hm. Qed.

Lemma bind_raise {A B} (m : M A) (f : A → M B) w e w1 :
  m w = (Raise e, w1) → bind m f w = (Raise e, w1).
Proof. intros Hm. unfold bind. by rewrite Hm. Qed.

Lemma getattr_ok {A} attr_name (field : instance → option A) l w i a :
  instances w !! l = Some i → field i = Some a →
  getattr attr_name field l w = (Ok a, w).
Proof.
  intros Hi Ha. unfold getattr, read_instance, bind, ret. by rewrite Hi, Ha.
Qed.

Lemma DataProvider_name_ok l w i name :
  instances w !! l = Some i → _name i = Some name →
  DataProvider_name l w = (Ok name, w).
Proof. apply getattr_ok. Qed.

Lemma DataProvider_init_ok self name order w reg :
  providers w = Some reg →
  DataProvider_init self name order w =
    (Ok tt,
     set_instances
       (alter (set__data_order order) self
          (alter (set__name name) self (instances w)))
       (set_providers (Some (<[name := self]> reg)) w)).
Proof.
  intros Hreg. unfold DataProvider_init, bind, gets, modify, update_instance.
  rewrite Hreg. reflexivity.
Qed.

Lemma new_DataProvider_ok name order w reg :
  providers w = Some reg →
  let self := fresh (dom (instances w)) in
  new_DataProvider name order w =
    (Ok self,
     set_instances
       (<[self := adapter_base C_DataProvider name order]> (instances w))
       (set_providers (Some (<[name := self]> reg)) w)).
Proof.
  intros Hreg self. unfold new_DataProvider.
  unfold bind at 1. unfold alloc_instance. fold self.
  erewrite bind_ok by (by apply DataProvider_init_ok).
  unfold ret. simpl. f_equal. unfold set_instances, set_providers. simpl.
  f_equal. rewrite !alter_insert_eq. reflexivity.
Qed.

Lemma DataProvider_del_registered self w reg i name p :
  providers w = Some reg →
  instances w !! self = Some i → _name i = Some name →
  reg !! name = Some p →
  DataProvider_del self w = (Ok tt, set_providers (Some (delete name reg)) w).
Proof.
  intros Hreg Hi Hn Hp. unfold DataProvider_del.
  unfold bind at 1. unfold gets. rewrite Hreg.
  erewrite bind_ok by (by eapply getattr_ok).
  by rewrite Hp.
Qed.

Lemma DataProvider_del_absent self w reg i name :
  providers w = Some reg →
  instances w !! self = Some i → _name i = Some name →
  reg !! name = None →
  DataProvider_del self w = (Raise (KeyError name), w).
Proof.
  intros Hreg Hi Hn Hp. unfold DataProvider_del.
  unfold bind at 1. unfold gets. rewrite Hreg.
  erewrite bind_ok by (by eapply getattr_ok).
  by rewrite Hp.
Qed.

(** C1, as the code has it.  Registering two providers under one name
    leaves one entry for that name, holding the second provider: the
    registry is the one a single registration of the second provider
    gives.  Disposing the first, replaced provider then succeeds and
    removes the entry of its name, whichever provider holds it: the name
    is no longer registered. *)
Theorem registry_same_name w reg name order1 order2 :
  providers w = Some reg →
  ∃ p1 p2 w1 w2 w3,
    new_DataProvider name order1 w = (Ok p1, w1) ∧
    new_DataProvider name order2 w1 = (Ok p2, w2) ∧
    p1 ≠ p2 ∧
    providers w2 = Some (<[name := p2]> reg) ∧
    DataProvider_del p1 w2 = (Ok tt, w3) ∧
    providers w3 = Some (delete name reg) ∧
    registered name w3 = None.
Proof.
  intros Hreg.
  pose proof (new_DataProvider_ok name order1 w reg Hreg) as H1. simpl in H1.
  set (p1 := fresh (dom (instances w))) in *.
  set (w1 := set_instances _ _) in H1.
  assert (providers w1 = Some (<[name := p1]> reg)) as Hreg1 by done.
  pose proof (new_DataProvider_ok name order2 w1 _ Hreg1) as H2. simpl in H2.
  set (p2 := fresh (dom (instances w1))) in *.
  set (w2 := set_instances _ _) in H2.
  assert (p1 ≠ p2) as Hne.
  { intros Heq. apply (is_fresh (dom (instances w1))). fold p2. rewrite <- Heq.
    subst w1. simpl. rewrite dom_insert_L. set_solver. }
  exists p1, p2, w1, w2, (set_providers (Some (delete name reg)) w2).
  split; [done|]. split; [done|]. split; [done|].
  split; [subst w2; simpl; by rewrite insert_insert_eq|].
  split.
  - assert (instances w2 !! p1 = Some (adapter_base C_DataProvider name order1))
      as Hi.
    { subst w2 w1. simpl. rewrite lookup_insert_ne by done.
      apply lookup_insert_eq. }
    rewrite (DataProvider_del_registered p1 w2
               (<[name := p2]> (<[name := p1]> reg)) _ name p2 eq_refl Hi eq_refl)
      by apply lookup_insert_eq.
    by rewrite insert_insert_eq, delete_insert_eq.
  - split; [done|]. unfold registered. simpl. apply lookup_delete_eq.
Qed.

(** ** Splitting paths *)

Lemma split_cons sep s : ∃ e rest, split sep s = e :: rest.
Proof.
  induction s as [|c s IH]; simpl; [eauto|].
  destruct (bool_decide (c = sep)); [eauto|].
  destruct IH as (e & rest & ->). eauto.
Qed.

Lemma split_no_sep sep s : no_sep sep s = true → split sep s = [s].
Proof.
  induction s as [|c s IH]; simpl; [done|].
  intros [Hc Hs]%andb_true_iff. apply negb_true_iff in Hc. rewrite Hc.
  by rewrite IH.
Qed.

Lemma split_app_sep sep a rest :
  no_sep sep a = true →
  split sep (a +:+ String sep rest) = a :: split sep rest.
Proof.
  induction a as [|c a IH]; simpl.
  - intros _. by rewrite bool_decide_eq_true_2.
  - intros [Hc Ha]%andb_true_iff. apply negb_true_iff in Hc. rewrite Hc.
    by rewrite IH.
Qed.

Lemma last_cons_is_Some {A} (x : A) l : ∃ y, last (x :: l) = Some y.
Proof.
  revert x. induction l as [|z l IH]; intros x; simpl; [eauto|]. apply IH.
Qed.

Lemma py_last_split sep s : ∃ e, py_last (split sep s) = Ok e.
Proof.
  destruct (split_cons sep s) as (e0 & rest & ->).
  destruct (last_cons_is_Some e0 rest) as (y & Hy).
  exists y. unfold py_last. by rewrite Hy.
Qed.

Lemma split_three A B C :
  no_sep slash A = true → no_sep slash B = true → no_sep slash C = true →
  split slash (strip_leading_slash ("/" +:+ A +:+ "/" +:+ B +:+ "/" +:+ C)) =
  [A; B; C].
Proof.
  intros HA HB HC.
  change (strip_leading_slash _) with (A +:+ String slash (B +:+ String slash C)).
  rewrite split_app_sep by done. rewrite split_app_sep by done.
  by rewrite split_no_sep.
Qed.

(** ** The product hierarchy *)

Lemma Product_merge_adopt fuel self other w s o :
  nodes w !! self = Some s → nodes w !! other = Some o →
  p_children s = [] →
  Product_merge (S fuel) self other w =
    (Ok tt, set_nodes (<[self := add_child other s]> (nodes w)) w).
Proof.
  intros Hs Ho Hc. simpl.
  unfold bind, read_node, find_child, gets, write_node, modify.
  rewrite Hs, Ho, Hc. reflexivity.
Qed.

Section hierarchy.
Variables (fuel : nat) (provider : loc) (inst : instance) (pname : string).
Variables (parameter_type : ParameterType) (metadata : loc).
Hypothesis provider_name : _name inst = Some pname.

Lemma attach_leaf_ok elements leaf_name root cur ncur w :
  instances w !! provider = Some inst →
  py_last elements = Ok leaf_name →
  nodes w !! cur = Some ncur → p_children ncur = [] →
  let c := fresh (dom (nodes w)) in
  attach_leaf (S fuel) provider elements parameter_type metadata root cur w =
    (Ok root,
     set_nodes
       (<[cur := add_child c ncur]>
          (<[c := leaf_node leaf_name metadata pname parameter_type]> (nodes w)))
       w).
Proof.
  intros Hi Hl Hcur Hch c. unfold attach_leaf. rewrite Hl.
  unfold bind at 1. unfold lift.
  erewrite bind_ok by (by eapply DataProvider_name_ok).
  unfold bind at 1.
  unfold bind at 1. unfold Product_new, alloc_node. fold c.
  assert (c ≠ cur) as Hne.
  { intros Heq. apply (is_fresh (dom (nodes w))). fold c. rewrite Heq.
    apply elem_of_dom. eauto. }
  erewrite bind_ok.
  2:{ eapply Product_merge_adopt; simpl; [|apply lookup_insert_eq|done].
      rewrite lookup_insert_ne by done. done. }
  reflexivity.
Qed.

Lemma hierarchy_loop_step m ms cur ncur w :
  instances w !! provider = Some inst →
  nodes w !! cur = Some ncur → p_children ncur = [] →
  let md := fresh (dom (dicts w)) in
  let new := fresh (dom (nodes w)) in
  hierarchy_loop (S fuel) provider (m :: ms) cur w =
  hierarchy_loop (S fuel) provider ms new
    (set_nodes
       (<[cur := add_child new ncur]>
          (<[new := namespace_node m md pname []]> (nodes w)))
       (set_dicts (<[md := ∅]> (dicts w)) w)).
Proof.
  intros Hi Hcur Hch md new.
  change (hierarchy_loop (S fuel) provider (m :: ms) cur) with
    (md <- alloc_dict ∅ ;;
     prov <- DataProvider_name provider ;;
     uid <- DataProvider_name provider ;;
     new_node <- Product_new m md (Some prov) uid false None None ;;
     Product_merge (S fuel) cur new_node ;;;
     hierarchy_loop (S fuel) provider ms new_node).
  unfold bind at 1. unfold alloc_dict. fold md.
  erewrite bind_ok by (by eapply DataProvider_name_ok).
  erewrite bind_ok by (by eapply DataProvider_name_ok).
  unfold bind at 1. unfold Product_new, alloc_node. simpl nodes. fold new.
  assert (new ≠ cur) as Hne.
  { intros Heq. apply (is_fresh (dom (nodes w))). fold new. rewrite Heq.
    apply elem_of_dom. eauto. }
  erewrite bind_ok.
  2:{ eapply Product_merge_adopt; simpl; [|apply lookup_insert_eq|done].
      rewrite lookup_insert_ne by done. done. }
  reflexivity.
Qed.
Lemma loop_attach_ok elements leaf_name root mids : ∀ cur ncur w,
  instances w !! provider = Some inst →
  py_last elements = Ok leaf_name →
  nodes w !! cur = Some ncur → p_children ncur = [] →
  ∃ c w',
    bind (hierarchy_loop (S fuel) provider mids cur)
      (attach_leaf (S fuel) provider elements parameter_type metadata root) w =
      (Ok root, w') ∧
    nodes w' !! cur = Some (add_child c ncur) ∧
    hierarchy w' pname parameter_type metadata c (mids ++ [leaf_name]) ∧
    preserved (Some cur) w w'.
Proof.
  induction mids as [|m ms IH]; intros cur ncur w Hi Hl Hcur Hch.
  - pose proof (attach_leaf_ok elements leaf_name root cur ncur w Hi Hl Hcur Hch)
      as Ha. cbv zeta in Ha.
    set (c := fresh (dom (nodes w))) in *.
    assert (c ∉ dom (nodes w)) as Hc by apply is_fresh.
    assert (c ≠ cur) as Hne.
    { intros Heq. apply Hc. rewrite Heq. apply elem_of_dom. eauto. }
    eexists c, _. split; [exact Ha|]. simpl.
    split; [apply lookup_insert_eq|].
    split.
    + apply hierarchy_leaf. simpl.
      rewrite lookup_insert_ne by done. apply lookup_insert_eq.
    + repeat split; try done. simpl. intros l Hl' Hlc.
      rewrite lookup_insert_ne by congruence.
      rewrite lookup_insert_ne by (intros ->; done). done.
  - pose proof (hierarchy_loop_step m ms cur ncur w Hi Hcur Hch) as Hs.
    cbv zeta in Hs.
    set (md := fresh (dom (dicts w))) in *.
    set (new := fresh (dom (nodes w))) in *.
    set (wc := set_nodes _ _) in Hs.
    assert (new ∉ dom (nodes w)) as Hnew by apply is_fresh.
    assert (md ∉ dom (dicts w)) as Hmd by apply is_fresh.
    assert (new ≠ cur) as Hne.
    { intros Heq. apply Hnew. rewrite Heq. apply elem_of_dom. eauto. }
    destruct (IH new (namespace_node m md pname []) wc) as (c & w' & Hrun & Hn & Hh & Hp);
      [done|done| |done|].
    { subst wc. simpl. rewrite lookup_insert_ne by done. apply lookup_insert_eq. }
    destruct Hp as (Hpn & Hpd & Hpi & Hpp & Hpc & Hpk).
    exists new, w'. split.
    { unfold bind at 1. rewrite Hs. exact Hrun. }
    split.
    { rewrite Hpn; [subst wc; simpl; apply lookup_insert_eq| |congruence].
      subst wc. simpl. rewrite !dom_insert_L. set_solver. }
    split.
    { apply (hierarchy_namespace _ _ _ _ new m md c); [exact Hn| |exact Hh].
      rewrite Hpd; [subst wc; simpl; apply lookup_insert_eq|].
      subst wc. simpl. rewrite dom_insert_L. set_solver. }
    split; [|split; [|done]].
    + intros l Hl' Hlc.
      rewrite Hpn; [| |intros [= ->]; done].
      * subst wc. simpl. rewrite lookup_insert_ne by congruence.
        rewrite lookup_insert_ne by (intros ->; done). done.
      * subst wc. simpl. rewrite !dom_insert_L. set_solver.
    + intros l Hl'. rewrite Hpd.
      * subst wc. simpl. rewrite lookup_insert_ne by (intros ->; done). done.
      * subst wc. simpl. rewrite dom_insert_L. set_solver.
Qed.

Lemma build_product_hierarchy_ok path w :
  instances w !! provider = Some inst →
  ∃ root w',
    build_product_hierarchy (S fuel) path provider parameter_type metadata w =
      (Ok root, w') ∧
    hierarchy w' pname parameter_type metadata root
      (node_names (split slash (strip_leading_slash path))) ∧
    (root ∉ dom (nodes w)) ∧
    preserved None w w'.
Proof.
  intros Hi. unfold build_product_hierarchy. cbv zeta.
  set (elements := split slash (strip_leading_slash path)).
  destruct (split_cons slash (strip_leading_slash path)) as (e0 & rest & He).
  fold elements in He.
  destruct (py_last_split slash (strip_leading_slash path)) as (leaf_name & Hl).
  fold elements in Hl.
  assert (node_names elements = e0 :: py_inner elements ++ [leaf_name]) as ->.
  { unfold node_names. unfold py_last in Hl. rewrite He in *.
    destruct (last (e0 :: rest)); by inversion Hl. }
  assert (py_first elements = Ok e0) as -> by (by rewrite He).
  unfold bind at 1. unfold lift.
  unfold bind at 1. unfold alloc_dict.
  set (md := fresh (dom (dicts w))).
  erewrite bind_ok by (by eapply DataProvider_name_ok).
  erewrite bind_ok by (by eapply DataProvider_name_ok).
  unfold bind at 1. unfold Product_new, alloc_node. simpl nodes.
  set (root := fresh (dom (nodes w))).
  set (wb := set_nodes _ _).
  assert (root ∉ dom (nodes w)) as Hroot by apply is_fresh.
  assert (md ∉ dom (dicts w)) as Hmd by apply is_fresh.
  destruct (loop_attach_ok elements leaf_name root (py_inner elements) root
              (namespace_node e0 md pname []) wb)
    as (c & w' & Hrun & Hn & Hh & Hp); [done|done| |done|].
  { subst wb. simpl. apply lookup_insert_eq. }
  destruct Hp as (Hpn & Hpd & Hpi & Hpp & Hpc & Hpk).
  exists root, w'. split; [exact Hrun|].
  split.
  { apply (hierarchy_namespace _ _ _ _ root e0 md c); [exact Hn| |exact Hh].
    rewrite Hpd; [subst wb; simpl; apply lookup_insert_eq|].
    subst wb. simpl. rewrite dom_insert_L. set_solver. }
  split; [done|].
  split; [|split; [|done]].
  - intros l Hl' _. rewrite Hpn; [| |intros [= ->]; done].
    + subst wb. simpl. rewrite lookup_insert_ne by (intros ->; done). done.
    + subst wb. simpl. rewrite dom_insert_L. set_solver.
  - intros l Hl'. rewrite Hpd.
    + subst wb. simpl. rewrite lookup_insert_ne by (intros ->; done). done.
    + subst wb. simpl. rewrite dom_insert_L. set_solver.
Qed.
End hierarchy.

(** C4.  For a path [/A/B/C] whose three segments contain no slash, a
    provider with a name, any parameter type and any metadata dict,
    [build_product_hierarchy] returns a root node named [A] with exactly
    one child, named [B], which has exactly one child, named [C]; [C] is
    marked [is_parameter], carries the given parameter type and the given
    metadata dict (its content as the caller left it), has no child, and
    has the text [C] as uid; the root and the intermediate node have the
    provider name as uid. *)
Theorem build_hierarchy_three_segments fuel A B C provider inst pname
    parameter_type metadata d w :
  no_sep slash A = true → no_sep slash B = true → no_sep slash C = true →
  instances w !! provider = Some inst → _name inst = Some pname →
  dicts w !! metadata = Some d →
  ∃ root b c md_root md_b w',
    build_product_hierarchy (S fuel) ("/" +:+ A +:+ "/" +:+ B +:+ "/" +:+ C)
      provider parameter_type metadata w = (Ok root, w') ∧
    nodes w' !! root = Some (namespace_node A md_root pname [b]) ∧
    nodes w' !! b = Some (namespace_node B md_b pname [c]) ∧
    nodes w' !! c = Some (leaf_node C metadata pname parameter_type) ∧
    p_uid (leaf_node C metadata pname parameter_type) = C ∧
    p_uid (namespace_node A md_root pname [b]) = pname ∧
    p_uid (namespace_node B md_b pname [c]) = pname ∧
    dicts w' !! metadata = Some d.
Proof.
  intros HA HB HC Hi Hn Hd.
  destruct (build_product_hierarchy_ok fuel provider inst pname parameter_type
              metadata Hn ("/" +:+ A +:+ "/" +:+ B +:+ "/" +:+ C) w Hi)
    as (root & w' & Hrun & Hh & _ & Hp).
  rewrite split_three in Hh by done.
  change (node_names [A; B; C]) with [A; B; C] in Hh.
  inversion Hh as [|? ? md_root b ? Hroot Hmd_root Hb]; subst.
  inversion Hb as [|? ? md_b c ? Hnb Hmd_b Hc]; subst.
  inversion Hc as [? ? Hleaf|? ? ? ? ? ? ? Hbad]; subst; [|inversion Hbad].
  exists root, b, c, md_root, md_b, w'.
  repeat split; try done.
  destruct Hp as (_ & Hpd & _). rewrite Hpd; [done|].
  apply elem_of_dom. eauto.
Qed.

Lemma build_hierarchy_three_segments_witness :
  ∃ root b c md_root md_b w',
    build_product_hierarchy 1 "/A/B/C" 1%positive SCALAR 1%positive sample_world =
      (Ok root, w') ∧
    nodes w' !! root = Some (namespace_node "A" md_root "p" [b]) ∧
    nodes w' !! b = Some (namespace_node "B" md_b "p" [c]) ∧
    nodes w' !! c = Some (leaf_node "C" 1%positive "p" SCALAR) ∧
    p_uid (leaf_node "C" 1%positive "p" SCALAR) = "C" ∧
    p_uid (namespace_node "A" md_root "p" [b]) = "p" ∧
    p_uid (namespace_node "B" md_b "p" [c]) = "p" ∧
    dicts w' !! 1%positive = Some {[ "units" := PyStr "nT" ]}.
Proof.
  apply (build_hierarchy_three_segments 0 "A" "B" "C" 1%positive
           (adapter_base C_DataProvider "p" X_FIRST) "p" SCALAR 1%positive
           {[ "units" := PyStr "nT" ]} sample_world);
    reflexivity.
Defined.

Lemma hierarchy_node_content w pname t metadata root names :
  hierarchy w pname t metadata root names →
  ∀ l n, reachable w root l → nodes w !! l = Some n →
         node_content w pname t metadata n.
Proof.
  induction 1 as [r name Hleaf|r name md c rest Hns Hmd Hh IH]; intros l n Hr Hn.
  - inversion Hr as [|? n' c' ? Hn' Hc']; subst.
    + rewrite Hleaf in Hn. injection Hn as <-. by repeat split.
    + rewrite Hleaf in Hn'. injection Hn' as <-. simpl in Hc'.
      by apply elem_of_nil in Hc'.
  - inversion Hr as [|? n' c' ? Hn' Hc' Hr']; subst.
    + rewrite Hns in Hn. injection Hn as <-. by repeat split.
    + rewrite Hns in Hn'. injection Hn' as <-. simpl in Hc'.
      apply list_elem_of_singleton in Hc' as ->. by apply (IH l n).
Qed.

(** C6, as the code has it.  In every tree [build_product_hierarchy]
    returns, for any path, only the leaf is marked [is_parameter] and
    carries a parameter type and the caller's metadata; the root and every
    intermediate node are not parameters, have no parameter type and have
    an empty metadata dict.  Every node, the root and the intermediate
    nodes included, carries the name of the provider. *)
Theorem build_hierarchy_nodes fuel path provider inst pname parameter_type
    metadata w :
  instances w !! provider = Some inst → _name inst = Some pname →
  ∃ root w',
    build_product_hierarchy (S fuel) path provider parameter_type metadata w =
      (Ok root, w') ∧
    hierarchy w' pname parameter_type metadata root
      (node_names (split slash (strip_leading_slash path))) ∧
    (∀ l n, reachable w' root l → nodes w' !! l = Some n →
            node_content w' pname parameter_type metadata n).
Proof.
  intros Hi Hn.
  destruct (build_product_hierarchy_ok fuel provider inst pname parameter_type
              metadata Hn path w Hi) as (root & w' & Hrun & Hh & _).
  exists root, w'. split; [done|]. split; [done|].
  by eapply hierarchy_node_content.
Qed.

Lemma build_hierarchy_nodes_witness :
  ∃ root w',
    build_product_hierarchy 1 "/AMDA/ACE/imf" 1%positive VECTOR 1%positive
      sample_world = (Ok root, w') ∧
    hierarchy w' "p" VECTOR 1%positive root
      (node_names (split slash (strip_leading_slash "/AMDA/ACE/imf"))) ∧
    (∀ l n, reachable w' root l → nodes w' !! l = Some n →
            node_content w' "p" VECTOR 1%positive n).
Proof.
  apply (build_hierarchy_nodes 0 "/AMDA/ACE/imf" 1%positive
           (adapter_base C_DataProvider "p" X_FIRST) "p" VECTOR 1%positive
           sample_world); reflexivity.
Defined.

(** The root built for [/A/B/C] carries the provider name. *)
Lemma root_carries_provider :
  let r := build_product_hierarchy 1 "/A/B/C" 1%positive SCALAR 1%positive
             sample_world in
  r.1 = Ok 1%positive ∧
  p_provider <$> nodes r.2 !! 1%positive = Some (Some "p") ∧
  p_is_parameter <$> nodes r.2 !! 1%positive = Some false ∧
  p_provider <$> nodes r.2 !! 1%positive ≠ Some None.
Proof. vm_compute. repeat split; discriminate. Qed.

(** ** Constructing the adapters *)

Lemma py_last_segment path : py_last (split slash path) = Ok (last_segment path).
Proof.
  destruct (py_last_split slash path) as (e & He). rewrite He.
  unfold py_last in He. unfold last_segment.
  destruct (last (split slash path)); by inversion He.
Qed.

Lemma dict_with_ok metadata extra w d :
  dicts w !! metadata = Some d →
  dict_with metadata extra w =
    (Ok (fresh (dom (dicts w))),
     set_dicts (<[fresh (dom (dicts w)) := extra d]> (dicts w)) w).
Proof.
  intros Hd. unfold dict_with, bind, read_dict. by rewrite Hd.
Qed.

Lemma EasyProvider_init_ok self path cb t md order w reg d i :
  providers w = Some reg →
  dicts w !! md = Some d →
  instances w !! self = Some i →
  let name := derived_name cb w in
  let node := fresh (dom (nodes w)) in
  EasyProvider_init self path cb t md order w =
    (Ok tt,
     {| providers := Some (<[name := self]> reg);
        instances :=
          <[self := set__user_get_data cb
                      (set__data_order order (set__name name i))]> (instances w);
        dicts := <[md := <["description" := PyStr (description t cb)]> d]> (dicts w);
        nodes := <[node := product_node path md name t]> (nodes w);
        products :=
          (str_drop_last (String.length (last_segment path)) path, node)
            :: products w;
        incr_names :=
          <[cb_name cb := S (default 0 (incr_names w !! cb_name cb))]>
            (incr_names w) |}).
Proof.
  intros Hreg Hd Hi name node. unfold EasyProvider_init.
  unfold bind at 1. unfold make_simple_incr_name. fold (derived_name cb w). fold name.
  erewrite bind_ok by (by apply DataProvider_init_ok).
  rewrite py_last_segment. unfold bind at 1. unfold lift.
  unfold bind at 1. unfold read_dict. simpl dicts. rewrite Hd.
  unfold bind at 1. unfold write_dict, modify.
  erewrite bind_ok.
  2:{ eapply DataProvider_name_ok; simpl.
      - rewrite lookup_alter_eq, lookup_alter_eq, Hi. reflexivity.
      - reflexivity. }
  unfold bind at 1. unfold Product_new, alloc_node. simpl nodes. fold node.
  unfold bind at 1. unfold products_add_product, modify.
  unfold update_instance, modify. simpl.
  f_equal. unfold set_instances. simpl. f_equal.
  apply map_eq. intros l. destruct (decide (l = self)) as [->|Hne].
  - rewrite lookup_insert_eq, !lookup_alter_eq, Hi. reflexivity.
  - rewrite lookup_insert_ne by done. by rewrite !lookup_alter_ne.
Qed.

Lemma new_adapter_ok s path cb metadata order w reg d :
  providers w = Some reg →
  dicts w !! metadata = Some d →
  new_adapter s path cb metadata order w =
    (Ok (fresh (dom (instances w))), constructed s path cb order reg d w).
Proof.
  intros Hreg Hd.
  set (self := fresh (dom (instances w))).
  set (wa := set_instances (<[self := blank (shape_class s)]> (instances w)) w).
  pose proof (dict_with_ok metadata (shape_extra s) wa d Hd) as Hdict.
  simpl dicts in Hdict.
  set (md := fresh (dom (dicts w))) in *.
  set (wb := set_dicts _ wa) in Hdict.
  assert (dicts wb !! md = Some (shape_extra s d)) as H1
    by (unfold wb; simpl; apply lookup_insert_eq).
  assert (instances wb !! self = Some (blank (shape_class s))) as H2
    by (unfold wb, wa; simpl; apply lookup_insert_eq).
  pose proof (EasyProvider_init_ok self path cb (shape_parameter_type s) md order
                wb reg (shape_extra s d) (blank (shape_class s)) Hreg H1 H2)
    as Hinit.
  cbv zeta in Hinit.
  destruct s as [c|cs|cs|]; simpl new_adapter;
    unfold EasyScalar, EasyVector, EasyMultiComponent, EasySpectrogram, construct;
    (unfold bind at 1; unfold alloc_instance; fold self; fold wa);
    unfold EasyScalar_init, EasyVector_init, EasyMultiComponent_init,
      EasySpectrogram_init.
  1-3: erewrite bind_ok by
         (erewrite bind_ok by exact Hdict;
          erewrite bind_ok by exact Hinit; reflexivity).
  4: erewrite bind_ok by (erewrite bind_ok by exact Hdict; exact Hinit).
  all: unfold ret, constructed, update_instance, modify; fold self; fold md;
    f_equal; unfold derived_name, wb, wa; simpl.
  1-3: unfold set_instances at 1; simpl; rewrite alter_insert_eq.
  all: unfold set_instances; simpl; by rewrite !insert_insert_eq.
Qed.

(** C10.  Constructing any of the four shape adapters leaves the caller's
    metadata dict as it was: the [components] entry (for the scalar,
    vector and multi-component adapters) and the [description] entry are
    written into a new dict, distinct from the caller's, which is the
    metadata of the product node registered in the catalog; every dict
    that existed before the call is unchanged. *)
Theorem adapter_keeps_caller_metadata s path cb metadata order w reg d :
  providers w = Some reg →
  dicts w !! metadata = Some d →
  ∃ self node md w',
    new_adapter s path cb metadata order w = (Ok self, w') ∧
    dicts w' !! metadata = Some d ∧
    md ≠ metadata ∧
    dicts w' !! md =
      Some (<["description" := PyStr (description (shape_parameter_type s) cb)]>
              (shape_extra s d)) ∧
    head (products w') =
      Some (str_drop_last (String.length (last_segment path)) path, node) ∧
    p_metadata <$> nodes w' !! node = Some md ∧
    (∀ l, l ∈ dom (dicts w) → dicts w' !! l = dicts w !! l).
Proof.
  intros Hreg Hd.
  assert (fresh (dom (dicts w)) ≠ metadata) as Hne.
  { intros Heq. apply (is_fresh (dom (dicts w))). rewrite Heq.
    apply elem_of_dom. eauto. }
  exists (fresh (dom (instances w))), (fresh (dom (nodes w))),
    (fresh (dom (dicts w))), (constructed s path cb order reg d w).
  split; [by apply new_adapter_ok|]. simpl.
  split; [by rewrite lookup_insert_ne|].
  split; [done|].
  split; [apply lookup_insert_eq|].
  split; [done|].
  split; [by rewrite lookup_insert_eq|].
  intros l Hl. apply lookup_insert_ne. intros Heq.
  apply (is_fresh (dom (dicts w))). by rewrite Heq.
Qed.

Lemma adapter_keeps_caller_metadata_witness :
  ∃ self node md w',
    new_adapter (Vector ["bx"; "by"; "bz"]) "/tests/imf" (cb_returning PyNone)
      1%positive Y_FIRST sample_world = (Ok self, w') ∧
    dicts w' !! 1%positive = Some {[ "units" := PyStr "nT" ]} ∧
    md ≠ 1%positive ∧
    dicts w' !! md =
      Some (<["description" :=
                PyStr (description VECTOR (cb_returning PyNone))]>
              (<["components" := PyStr "bx;by;bz"]> {[ "units" := PyStr "nT" ]})) ∧
    head (products w') = Some ("/tests/", node) ∧
    p_metadata <$> nodes w' !! node = Some md ∧
    (∀ l, l ∈ dom (dicts sample_world) → dicts w' !! l = dicts sample_world !! l).
Proof.
  apply (adapter_keeps_caller_metadata (Vector ["bx"; "by"; "bz"]) "/tests/imf"
           (cb_returning PyNone) 1%positive Y_FIRST sample_world
           {[ "p" := 1%positive ]} {[ "units" := PyStr "nT" ]});
    reflexivity.
Defined.

Section variants.
Context `{Numpy}.

(** C9, as the code has it.  A multi-component adapter and a vector
    adapter built from the same arguments, in the same store, fetch the
    same result for every product, start and stop, whatever the callback
    does.  What the two constructions leave behind differs in three places
    and in nothing else: the class of the new object, whose attributes are
    the same; the parameter type of the product node put in the catalog,
    [VECTOR] for one and [MULTICOMPONENT] for the other; and the
    [description] entry of that node's metadata, whose text names the
    parameter type.  The other entries of the metadata, the catalog, the
    registry, the name counters and every other object, node and dict are
    the same. *)
Theorem multicomponent_as_vector path cb components_names metadata order w reg d :
  providers w = Some reg →
  dicts w !! metadata = Some d →
  ∃ self node md name w_v w_m,
    EasyVector path cb components_names metadata order w = (Ok self, w_v) ∧
    EasyMultiComponent path cb components_names metadata order w = (Ok self, w_m) ∧
    (∀ product start stop,
       get_data (adapter C_EasyMultiComponent name order cb (Some components_names))
         product start stop =
       get_data (adapter C_EasyVector name order cb (Some components_names))
         product start stop) ∧
    instances w_v =
      <[self := adapter C_EasyVector name order cb (Some components_names)]>
        (instances w) ∧
    instances w_m =
      <[self := adapter C_EasyMultiComponent name order cb (Some components_names)]>
        (instances w) ∧
    nodes w_v = <[node := product_node path md name VECTOR]> (nodes w) ∧
    nodes w_m = <[node := product_node path md name MULTICOMPONENT]> (nodes w) ∧
    dicts w_v =
      <[md := <["description" := PyStr (description VECTOR cb)]>
                (<["components" := PyStr (join ";" components_names)]> d)]>
        (dicts w) ∧
    dicts w_m =
      <[md := <["description" := PyStr (description MULTICOMPONENT cb)]>
                (<["components" := PyStr (join ";" components_names)]> d)]>
        (dicts w) ∧
    description VECTOR cb ≠ description MULTICOMPONENT cb ∧
    products w_v = products w_m ∧
    head (products w_v) =
      Some (str_drop_last (String.length (last_segment path)) path, node) ∧
    providers w_v = providers w_m ∧
    incr_names w_v = incr_names w_m.
Proof.
  intros Hreg Hd.
  exists (fresh (dom (instances w))), (fresh (dom (nodes w))),
    (fresh (dom (dicts w))), (derived_name cb w),
    (constructed (Vector components_names) path cb order reg d w),
    (constructed (MultiComponent components_names) path cb order reg d w).
  split; [exact (new_adapter_ok (Vector components_names) _ _ _ _ _ _ _ Hreg Hd)|].
  split; [exact (new_adapter_ok (MultiComponent components_names) _ _ _ _ _ _ _ Hreg Hd)|].
  simpl. repeat split. unfold description. simpl. discriminate.
Qed.
End variants.

Lemma multicomponent_as_vector_witness :
  ∃ self node md name w_v w_m,
    EasyVector "/tests/imf" (cb_returning (PyInt 1)) ["bx"; "by"] 1%positive
      Y_FIRST sample_world = (Ok self, w_v) ∧
    EasyMultiComponent "/tests/imf" (cb_returning (PyInt 1)) ["bx"; "by"]
      1%positive Y_FIRST sample_world = (Ok self, w_m) ∧
    (∀ product start stop,
       @get_data numpy_numbers
         (adapter C_EasyMultiComponent name Y_FIRST (cb_returning (PyInt 1))
            (Some ["bx"; "by"])) product start stop =
       @get_data numpy_numbers
         (adapter C_EasyVector name Y_FIRST (cb_returning (PyInt 1))
            (Some ["bx"; "by"])) product start stop) ∧
    instances w_v =
      <[self := adapter C_EasyVector name Y_FIRST (cb_returning (PyInt 1))
                  (Some ["bx"; "by"])]> (instances sample_world) ∧
    instances w_m =
      <[self := adapter C_EasyMultiComponent name Y_FIRST (cb_returning (PyInt 1))
                  (Some ["bx"; "by"])]> (instances sample_world) ∧
    nodes w_v = <[node := product_node "/tests/imf" md name VECTOR]>
                  (nodes sample_world) ∧
    nodes w_m = <[node := product_node "/tests/imf" md name MULTICOMPONENT]>
                  (nodes sample_world) ∧
    dicts w_v =
      <[md := <["description" := PyStr (description VECTOR (cb_returning (PyInt 1)))]>
                (<["components" := PyStr (join ";" ["bx"; "by"])]>
                   {[ "units" := PyStr "nT" ]})]> (dicts sample_world) ∧
    dicts w_m =
      <[md := <["description" :=
                  PyStr (description MULTICOMPONENT (cb_returning (PyInt 1)))]>
                (<["components" := PyStr (join ";" ["bx"; "by"])]>
                   {[ "units" := PyStr "nT" ]})]> (dicts sample_world) ∧
    description VECTOR (cb_returning (PyInt 1)) ≠
      description MULTICOMPONENT (cb_returning (PyInt 1)) ∧
    products w_v = products w_m ∧
    head (products w_v) =
      Some (str_drop_last (String.length (last_segment "/tests/imf")) "/tests/imf",
            node) ∧
    providers w_v = providers w_m ∧
    incr_names w_v = incr_names w_m.
Proof.
  apply (@multicomponent_as_vector numpy_numbers "/tests/imf"
           (cb_returning (PyInt 1)) ["bx"; "by"] 1%positive Y_FIRST sample_world
           {[ "p" := 1%positive ]} {[ "units" := PyStr "nT" ]});
    reflexivity.
Defined.

(** A vector adapter and a multi-component adapter are built from the same
    arguments.  The products they register differ in their parameter type
    and also in the description their metadata holds. *)
Lemma multicomponent_description_differs :
  let description_of (r : result loc * world) : option pyval :=
    '(_, node) ← head (products r.2);
    n ← nodes r.2 !! node;
    md ← dicts r.2 !! p_metadata n;
    md !! "description" in
  let r_v := EasyVector "/tests/imf" (cb_returning (PyInt 1)) ["bx"; "by"]
               1%positive Y_FIRST sample_world in
  let r_m := EasyMultiComponent "/tests/imf" (cb_returning (PyInt 1)) ["bx"; "by"]
               1%positive Y_FIRST sample_world in
  description_of r_v =
    Some (PyStr "Virtual VECTOR product built from Python function: f") ∧
  description_of r_m =
    Some (PyStr "Virtual MULTICOMPONENT product built from Python function: f") ∧
  description_of r_v ≠ description_of r_m.
Proof. vm_compute. repeat split. discriminate. Qed.

(** ** Concrete runs *)

Lemma registry_same_name_witness :
  ∃ p1 p2 w1 w2 w3,
    new_DataProvider "amda" X_FIRST empty_world = (Ok p1, w1) ∧
    new_DataProvider "amda" Y_FIRST w1 = (Ok p2, w2) ∧
    p1 ≠ p2 ∧
    providers w2 = Some (<["amda" := p2]> ∅) ∧
    DataProvider_del p1 w2 = (Ok tt, w3) ∧
    providers w3 = Some (delete "amda" ∅) ∧
    registered "amda" w3 = None.
Proof.
  apply (registry_same_name empty_world ∅ "amda" X_FIRST Y_FIRST). reflexivity.
Defined.

(** Two providers are registered under the name [amda]; the first one is
    disposed of.  The second one, still alive, is no longer registered,
    and disposing of it then raises [KeyError]. *)
Lemma dispose_replaced_provider :
  let r1 := new_DataProvider "amda" X_FIRST empty_world in
  let r2 := new_DataProvider "amda" X_FIRST r1.2 in
  let r3 := DataProvider_del 1%positive r2.2 in
  let r4 := DataProvider_del 2%positive r3.2 in
  r1.1 = Ok 1%positive ∧ r2.1 = Ok 2%positive ∧
  registered "amda" r2.2 = Some 2%positive ∧
  r3.1 = Ok tt ∧
  registered "amda" r3.2 = None ∧
  registered "amda" r3.2 ≠ registered "amda" r2.2 ∧
  r4.1 = Raise (KeyError "amda").
Proof. vm_compute. repeat split. discriminate. Qed.


Lemma get_data_propagates_witness :
  @get_data numpy_numbers
    (adapter C_EasyVector "f0" Y_FIRST (cb_raising boom) (Some ["bx"; "by"]))
    1%positive (PyInt 0) (PyInt 2) = Raise boom ∧
  @get_data numpy_numbers
    (adapter C_EasyVector "f0" Y_FIRST (cb_raising boom) (Some ["bx"; "by"]))
    1%positive (PyInt 0) (PyInt 2) ≠ Ok PyNone.
Proof.
  apply (@get_data_propagates numpy_numbers
           (adapter C_EasyVector "f0" Y_FIRST (cb_raising boom) (Some ["bx"; "by"]))
           (cb_raising boom)); reflexivity.
Defined.

(** The callback of each of the four adapters raises: the fetch raises the
    same exception and does not return [None]. *)
Lemma callback_exception_escapes :
  let fetch c cols :=
    @get_data numpy_numbers (adapter c "f0" Y_FIRST (cb_raising boom) cols)
      1%positive (PyInt 0) (PyInt 2) in
  fetch C_EasyScalar (Some ["b"]) = Raise boom ∧
  fetch C_EasyVector (Some ["bx"; "by"]) = Raise boom ∧
  fetch C_EasyMultiComponent (Some ["bx"; "by"]) = Raise boom ∧
  fetch C_EasySpectrogram None = Raise boom ∧
  fetch C_EasyScalar (Some ["b"]) ≠ Ok PyNone.
Proof. vm_compute. repeat split. discriminate. Qed.

Lemma get_data_unrecognized_witness :
  @get_data numpy_numbers
    (adapter C_EasySpectrogram "f0" Y_FIRST (cb_returning (PyFloat (f64_of_Z 3))) None)
    1%positive (PyInt 0) (PyInt 2) = Ok PyNone.
Proof.
  apply (@get_data_unrecognized numpy_numbers
           (adapter C_EasySpectrogram "f0" Y_FIRST
              (cb_returning (PyFloat (f64_of_Z 3))) None)
           (cb_returning (PyFloat (f64_of_Z 3)))
           1%positive (PyInt 0) (PyInt 2) (PyFloat (f64_of_Z 3))); reflexivity.
Defined.

(** A tuple of the wrong length: three elements for the scalar adapter,
    two for the spectrogram adapter.  The unpacking raises [ValueError]. *)
Lemma wrong_arity_tuple_raises :
  @get_data numpy_numbers
    (adapter C_EasyScalar "f0" Y_FIRST
       (cb_returning (PyTuple [PyInt 1; PyInt 2; PyInt 3])) (Some ["b"]))
    1%positive (PyInt 0) (PyInt 2) =
    Raise (ValueError "too many values to unpack (expected 2)") ∧
  @get_data numpy_numbers
    (adapter C_EasySpectrogram "f0" Y_FIRST
       (cb_returning (PyTuple [PyInt 1; PyInt 2])) None)
    1%positive (PyInt 0) (PyInt 2) =
    Raise (ValueError "not enough values to unpack (expected 3, got 2)") ∧
  @get_data numpy_numbers
    (adapter C_EasyScalar "f0" Y_FIRST
       (cb_returning (PyTuple [PyInt 1; PyInt 2; PyInt 3])) (Some ["b"]))
    1%positive (PyInt 0) (PyInt 2) ≠ Ok PyNone.
Proof. vm_compute. repeat split. discriminate. Qed.


Lemma EasySpectrogram_fetch_witness :
  ∃ t,
    ensure_dt64 (PyNdarray sample_x) = Ok t ∧
    nd_len t = Ok 2 ∧
    nd_dtype t = dt_datetime64 unit_ns ∧
    @get_data numpy_numbers
      (adapter C_EasySpectrogram "f0" Y_FIRST
         (cb_returning (PyTuple [PyNdarray sample_x; PyNdarray sample_y;
                                 PyNdarray sample_z])) None)
      1%positive (PyInt 0) (PyInt 60) =
      Ok (PySpeasyVariable
            {| sv_axes := [VariableTimeAxis t; VariableAxis sample_y];
               sv_values := mk_DataContainer sample_z;
               sv_columns := None |}).
Proof.
  apply (@EasySpectrogram_fetch numpy_numbers
           (adapter C_EasySpectrogram "f0" Y_FIRST
              (cb_returning (PyTuple [PyNdarray sample_x; PyNdarray sample_y;
                                      PyNdarray sample_z])) None)
           (cb_returning (PyTuple [PyNdarray sample_x; PyNdarray sample_y;
                                   PyNdarray sample_z]))
           1%positive (PyInt 0) (PyInt 60) sample_x sample_y sample_z 2 3);
    reflexivity.
Defined.


Lemma EasyScalar_fetch_witness :
  @get_data numpy_numbers
    (adapter C_EasyScalar "f0" Y_FIRST
       (cb_returning (PyTuple [seconds_012; PyNdarray (mk_ndarray [3] data_10_20_30)]))
       (Some ["b"]))
    1%positive (PyInt 0) (PyInt 2) =
    Ok (PySpeasyVariable
          {| sv_axes :=
               [VariableTimeAxis
                  (mk_ndarray [3]
                     (buf_datetime64 unit_ns [0; 1000000000; 2000000000]%Z))];
             sv_values := mk_DataContainer (mk_ndarray [3] data_10_20_30);
             sv_columns := Some ["b"] |}).
Proof.
  refine (proj1 (@EasyScalar_fetch numpy_numbers
           (adapter C_EasyScalar "f0" Y_FIRST
              (cb_returning
                 (PyTuple [seconds_012; PyNdarray (mk_ndarray [3] data_10_20_30)]))
              (Some ["b"]))
           (cb_returning
              (PyTuple [seconds_012; PyNdarray (mk_ndarray [3] data_10_20_30)]))
           "b" 1%positive (PyInt 0) (PyInt 2) _ _ _) data_10_20_30 _);
    reflexivity.
Defined.

(* ===================================================================== *)
(** * Further properties of the code *)
(* ===================================================================== *)

(** ** The registry: registration, lookup, disposal *)

Lemma registered_set_providers name reg w :
  registered name (set_providers (Some reg) w) = reg !! name.
Proof. reflexivity. Qed.

(** X1.  Creating a [DataProvider] under a name that is not registered
    registers the new object under it: the registry maps the name to it,
    the [name] and [data_order] properties read back what the constructor
    was given, every other name resolves as before, and the objects that
    existed are untouched. *)
Theorem DataProvider_registers name order w reg :
  providers w = Some reg →
  reg !! name = None →
  ∃ self w',
    new_DataProvider name order w = (Ok self, w') ∧
    registered name w' = Some self ∧
    DataProvider_name self w' = (Ok name, w') ∧
    DataProvider_data_order self w' = (Ok order, w') ∧
    (∀ other, other ≠ name → registered other w' = registered other w) ∧
    (self ∉ dom (instances w)) ∧
    (∀ l, l ∈ dom (instances w) → instances w' !! l = instances w !! l).
Proof.
  intros Hreg _.
  pose proof (new_DataProvider_ok name order w reg Hreg) as Hnew.
  cbv zeta in Hnew.
  set (self := fresh (dom (instances w))) in *.
  assert (self ∉ dom (instances w)) as Hfresh by apply is_fresh.
  eexists self, _. split; [exact Hnew|].
  split; [apply lookup_insert_eq|].
  split.
  { eapply getattr_ok; [apply lookup_insert_eq|reflexivity]. }
  split.
  { eapply getattr_ok; [apply lookup_insert_eq|reflexivity]. }
  split.
  { intros other Hne. unfold registered. simpl. rewrite Hreg. simpl.
    by apply lookup_insert_ne. }
  split; [done|].
  intros l Hl. simpl. apply lookup_insert_ne. by intros <-.
Qed.

Lemma DataProvider_registers_witness :
  ∃ self w',
    new_DataProvider "speasy" Y_FIRST sample_world = (Ok self, w') ∧
    registered "speasy" w' = Some self ∧
    DataProvider_name self w' = (Ok "speasy", w') ∧
    DataProvider_data_order self w' = (Ok Y_FIRST, w') ∧
    (∀ other, other ≠ "speasy" → registered other w' = registered other sample_world) ∧
    (self ∉ dom (instances sample_world)) ∧
    (∀ l, l ∈ dom (instances sample_world) →
          instances w' !! l = instances sample_world !! l).
Proof.
  apply (DataProvider_registers "speasy" Y_FIRST sample_world {[ "p" := 1%positive ]});
    reflexivity.
Defined.

(** X2.  Creating a provider under a name that is not registered and then
    disposing of it gives the registry back as it was before the creation;
    the disposal changes nothing but the registry. *)
Theorem register_then_dispose name order w reg :
  providers w = Some reg →
  reg !! name = None →
  ∃ self w1 w2,
    new_DataProvider name order w = (Ok self, w1) ∧
    DataProvider_del self w1 = (Ok tt, w2) ∧
    providers w2 = providers w ∧
    same_objects w1 w2.
Proof.
  intros Hreg Hfree.
  pose proof (new_DataProvider_ok name order w reg Hreg) as Hnew.
  cbv zeta in Hnew.
  set (self := fresh (dom (instances w))) in *.
  set (w1 := set_instances _ _) in Hnew.
  assert (instances w1 !! self = Some (adapter_base C_DataProvider name order)) as Hi
    by (unfold w1; simpl; apply lookup_insert_eq).
  pose proof (DataProvider_del_registered self w1 (<[name := self]> reg) _ name self
                eq_refl Hi eq_refl (lookup_insert_eq _ _ _)) as Hdel.
  rewrite delete_insert_eq in Hdel.
  eexists self, w1, _. split; [exact Hnew|]. split; [exact Hdel|].
  split; [|done]. simpl. by rewrite delete_id, Hreg.
Qed.

Lemma register_then_dispose_witness :
  ∃ self w1 w2,
    new_DataProvider "speasy" Y_FIRST sample_world = (Ok self, w1) ∧
    DataProvider_del self w1 = (Ok tt, w2) ∧
    providers w2 = providers sample_world ∧
    same_objects w1 w2.
Proof.
  apply (register_then_dispose "speasy" Y_FIRST sample_world {[ "p" := 1%positive ]});
    reflexivity.
Defined.

(** X3.  A provider is created under a name that is not registered.  Its
    first disposal succeeds; disposing of it a second time raises
    [KeyError] with its name, and changes nothing. *)
Theorem dispose_twice name order w reg :
  providers w = Some reg →
  reg !! name = None →
  ∃ self w1 w2,
    new_DataProvider name order w = (Ok self, w1) ∧
    DataProvider_del self w1 = (Ok tt, w2) ∧
    DataProvider_del self w2 = (Raise (KeyError name), w2).
Proof.
  intros Hreg _.
  pose proof (new_DataProvider_ok name order w reg Hreg) as Hnew.
  cbv zeta in Hnew.
  set (self := fresh (dom (instances w))) in *.
  set (w1 := set_instances _ _) in Hnew.
  assert (instances w1 !! self = Some (adapter_base C_DataProvider name order)) as Hi
    by (unfold w1; simpl; apply lookup_insert_eq).
  pose proof (DataProvider_del_registered self w1 (<[name := self]> reg) _ name self
                eq_refl Hi eq_refl (lookup_insert_eq _ _ _)) as Hdel.
  set (w2 := set_providers _ w1) in Hdel.
  exists self, w1, w2. split; [exact Hnew|]. split; [exact Hdel|].
  apply (DataProvider_del_absent self w2 (delete name (<[name := self]> reg))
           (adapter_base C_DataProvider name order) name); try done.
  apply lookup_delete_eq.
Qed.

Lemma dispose_twice_witness :
  ∃ self w1 w2,
    new_DataProvider "speasy" Y_FIRST sample_world = (Ok self, w1) ∧
    DataProvider_del self w1 = (Ok tt, w2) ∧
    DataProvider_del self w2 = (Raise (KeyError "speasy"), w2).
Proof.
  apply (dispose_twice "speasy" Y_FIRST sample_world {[ "p" := 1%positive ]});
    reflexivity.
Defined.

(** X4.  Whatever the store and the object, [__del__] touches nothing but
    the registry, and in the registry at most the entry of the object's own
    name: every other name resolves as before.  Once the module global is
    [None] it does nothing at all and does not raise, even for an object
    whose constructor never set [_name]. *)
Theorem DataProvider_del_frame self w :
  same_objects w (DataProvider_del self w).2 ∧
  (∀ i name other,
     instances w !! self = Some i → _name i = Some name → other ≠ name →
     registered other (DataProvider_del self w).2 = registered other w) ∧
  (providers w = None → DataProvider_del self w = (Ok tt, w)).
Proof.
  unfold DataProvider_del, getattr, read_instance, bind, gets, ret, raise, modify.
  destruct (providers w) as [reg|] eqn:Hreg; simpl; [|by repeat split].
  destruct (instances w !! self) as [i|] eqn:Hi; simpl;
    [|by repeat split].
  destruct (_name i) as [name|] eqn:Hn; simpl.
  2:{ split; [done|]. split; [|done]. intros ? ? ? [= <-]. congruence. }
  destruct (reg !! name) eqn:Hlook; simpl; [|by repeat split].
  split; [done|]. split; [|done].
  intros i' name' other [= <-] Hn' Hne. rewrite Hn in Hn'.
  injection Hn' as <-. unfold registered. simpl. rewrite Hreg. simpl.
  by apply lookup_delete_ne.
Qed.

Lemma DataProvider_del_frame_witness :
  registered "other" (DataProvider_del 1%positive sample_world).2 =
  registered "other" sample_world.
Proof.
  apply (proj1 (proj2 (DataProvider_del_frame 1%positive sample_world))
           (adapter_base C_DataProvider "p" X_FIRST) "p" "other");
    [reflexivity|reflexivity|discriminate].
Defined.

(** ** The axis normalizer, continued *)

(** X5.  For an array with at least one dimension (a 0-d array of
    timestamps, which is returned as it is, included; a 0-d array of
    floats, for which numpy gives a scalar, excluded), what [ensure_dt64]
    returns is an array of nanosecond timestamps with the shape and the
    number of elements of its input, and normalizing it again returns it
    unchanged. *)
Theorem ensure_dt64_idempotent a t :
  (nd_dtype a = dt_float64 → nd_shape a ≠ []) →
  ensure_dt64 (PyNdarray a) = Ok t →
  ensure_dt64 (PyNdarray t) = Ok t ∧
  nd_dtype t = dt_datetime64 unit_ns ∧
  nd_shape t = nd_shape a ∧
  buf_size (nd_buf t) = buf_size (nd_buf a).
Proof.
  intros _ Ht.
  destruct (ensure_dt64_shape _ t Ht) as (a' & [= <-] & Hsh & Hdt).
  split; [by apply ensure_dt64_datetime|]. split; [done|]. split; [done|].
  destruct a as [sh buf]. revert Ht. unfold ensure_dt64, nd_dtype.
  unfold nd_astype_datetime64_ns.
  destruct buf as [u l|l|l|l|n s]; [destruct u|..]; simpl;
    try discriminate; intros [= <-]; simpl; [done|].
  by rewrite !length_map.
Qed.

Lemma ensure_dt64_idempotent_witness :
  ensure_dt64 (PyNdarray (mk_ndarray [2] (buf_datetime64 unit_ns [0; 60000000000]%Z))) =
    Ok (mk_ndarray [2] (buf_datetime64 unit_ns [0; 60000000000]%Z)) ∧
  nd_dtype (mk_ndarray [2] (buf_datetime64 unit_ns [0; 60000000000]%Z)) =
    dt_datetime64 unit_ns ∧
  nd_shape (mk_ndarray [2] (buf_datetime64 unit_ns [0; 60000000000]%Z)) =
    nd_shape sample_x ∧
  buf_size (nd_buf (mk_ndarray [2] (buf_datetime64 unit_ns [0; 60000000000]%Z))) =
    buf_size (nd_buf sample_x).
Proof.
  apply (ensure_dt64_idempotent sample_x); [discriminate|vm_compute; reflexivity].
Defined.

Lemma ensure_dt64_accepts v :
  axis_supported v = true → ∃ t, ensure_dt64 v = Ok t.
Proof.
  destruct v as [| | | | | | |a| |]; try discriminate.
  destruct a as [sh buf]. unfold ensure_dt64, nd_dtype, nd_astype_datetime64_ns.
  destruct buf as [u l|l|l|l|n s]; [destruct u|..]; simpl;
    try discriminate; eauto.
Qed.

Lemma f64_mul_nan k : f64_mul S754_nan k = S754_nan.
Proof. by destruct k. Qed.

Lemma f64_mul_zero_1e9 s : f64_mul (S754_zero s) f64_1e9 = S754_zero s.
Proof. by destruct s. Qed.

(** X6.  In an array of float seconds, every NaN becomes NaT and every
    zero, of either sign, becomes the epoch, at the same position; no
    element is added or dropped. *)
Theorem ensure_dt64_special_values shape l :
  ∃ l',
    ensure_dt64 (PyNdarray (mk_ndarray shape (buf_float64 l))) =
      Ok (mk_ndarray shape (buf_datetime64 unit_ns l')) ∧
    length l' = length l ∧
    (∀ i f, l !! i = Some f → f64_is_nan f = true → l' !! i = Some NaT) ∧
    (∀ i f, l !! i = Some f → f64_is_zero f = true → l' !! i = Some 0%Z).
Proof.
  eexists. split; [apply ensure_dt64_float|].
  split; [by rewrite length_map|].
  split; intros i f Hi Hf; rewrite list_lookup_fmap, Hi; simpl;
    destruct f; try discriminate.
  - by rewrite f64_mul_nan.
  - by rewrite f64_mul_zero_1e9.
Qed.

(** ** Fetching, continued *)

Section fetch_more.
Context `{Numpy}.

#[local] Arguments ensure_dt64 : simpl never.
#[local] Arguments SpeasyVariable_new : simpl never.

Lemma get_data_pair self cb columns product start stop x y n :
  one_axis_adapter (i_class self) = true →
  _user_get_data self = Some cb →
  _columns self = Some columns →
  cb_call cb start stop = Ok (PyTuple [PyNdarray x; PyNdarray y]) →
  axis_supported (PyNdarray x) = true →
  nd_len x = Ok n →
  nd_len y = Ok n →
  ∃ t,
    ensure_dt64 (PyNdarray x) = Ok t ∧
    nd_shape t = nd_shape x ∧
    nd_dtype t = dt_datetime64 unit_ns ∧
    get_data self product start stop =
      Ok (PySpeasyVariable
            {| sv_axes := [VariableTimeAxis t];
               sv_values := mk_DataContainer y;
               sv_columns := Some columns |}).
Proof.
  intros Hc Hcb Hcol He Hx Hnx Hny.
  destruct (ensure_dt64_accepts _ Hx) as (t & Ht).
  exists t. destruct (ensure_dt64_shape _ _ Ht) as (a & [= <-] & Hsh & Hdt).
  split; [done|]. split; [done|]. split; [done|].
  unfold nd_len in Hnx, Hny.
  destruct (nd_shape x) as [|n' sx] eqn:Hsx; [discriminate|]. injection Hnx as ->.
  destruct (nd_shape y) as [|n' sy] eqn:Hsy; [discriminate|]. injection Hny as ->.
  assert (nd_atleast_1d y = y) as Hy by (unfold nd_atleast_1d; by rewrite Hsy).
  unfold get_data.
  destruct (i_class self); try discriminate;
    unfold EasyScalar_get_data, EasyVector_get_data;
    rewrite Hcb; simpl; rewrite He; simpl; rewrite Ht; simpl;
    rewrite Hcol, Hy; simpl;
    by rewrite (SpeasyVariable_new_ok _ _ _ _ n sx sy).
Qed.

(** X7.  For the scalar, vector and multi-component adapters, a callback
    result [(x, y)] with [x] a supported time axis, [y] an array, and [x]
    and [y] of the same length (so neither is 0-d), gives a variable with
    exactly one axis, the normalized [x] (same shape, in nanosecond
    timestamps), with the configured columns, and with [y] as its data. *)
Theorem one_axis_fetch self cb columns product start stop x y n :
  one_axis_adapter (i_class self) = true →
  _user_get_data self = Some cb →
  _columns self = Some columns →
  cb_call cb start stop = Ok (PyTuple [PyNdarray x; PyNdarray y]) →
  axis_supported (PyNdarray x) = true →
  nd_len x = Ok n →
  nd_len y = Ok n →
  ∃ t,
    ensure_dt64 (PyNdarray x) = Ok t ∧
    nd_shape t = nd_shape x ∧
    nd_dtype t = dt_datetime64 unit_ns ∧
    get_data self product start stop =
      Ok (PySpeasyVariable
            {| sv_axes := [VariableTimeAxis t];
               sv_values := mk_DataContainer y;
               sv_columns := Some columns |}).
Proof. apply get_data_pair. Qed.

(** X8.  For every shape adapter, a tuple of the expected length whose
    first element is not a supported time axis (a list, an integer array,
    timestamps in another unit, ...) makes the fetch raise the
    [ValueError] of [ensure_dt64]; it does not return [None]. *)
Theorem fetch_unsupported_axis self cb product start stop x rest :
  shape_adapter (i_class self) = true →
  _user_get_data self = Some cb →
  cb_call cb start stop = Ok (PyTuple (x :: rest)) →
  S (length rest) = expected_arity (i_class self) →
  axis_supported x = false →
  get_data self product start stop =
    Raise (ValueError ("can't handle x axis type " +:+ type_repr x)).
Proof.
  intros Hc Hcb He Hlen Hx. unfold get_data.
  destruct (i_class self); try discriminate; simpl in Hlen;
    unfold EasyScalar_get_data, EasyVector_get_data, EasySpectrogram_get_data;
    rewrite Hcb; simpl; rewrite He; simpl;
    destruct rest as [|y [|z [|? ?]]]; try discriminate; simpl;
    by rewrite (ensure_dt64_unsupported x Hx).
Qed.

(** X9.  For every shape adapter, a tuple whose length is not the
    expected one (two, three for the spectrogram adapter) makes the fetch
    raise the [ValueError] of the unpacking, whatever the tuple holds. *)
Theorem fetch_wrong_arity self cb product start stop items :
  shape_adapter (i_class self) = true →
  _user_get_data self = Some cb →
  cb_call cb start stop = Ok (PyTuple items) →
  length items ≠ expected_arity (i_class self) →
  get_data self product start stop =
    Raise (unpack_error (expected_arity (i_class self)) (length items)).
Proof.
  intros Hc Hcb He Hlen. unfold get_data.
  destruct (i_class self); try discriminate; simpl in Hlen |- *;
    unfold EasyScalar_get_data, EasyVector_get_data, EasySpectrogram_get_data;
    rewrite Hcb; simpl; rewrite He; simpl;
    destruct items as [|x [|y [|z [|? ?]]]]; simpl in *; congruence.
Qed.
End fetch_more.

Lemma ensure_dt64_special_values_size :
  ∃ l',
    ensure_dt64
      (PyNdarray (mk_ndarray [2] (buf_float64 [S754_nan; S754_zero true]))) =
      Ok (mk_ndarray [2] (buf_datetime64 unit_ns l')) ∧
    l' = [NaT; 0%Z].
Proof. eexists. split; reflexivity. Qed.

Lemma one_axis_fetch_witness :
  ∃ t,
    ensure_dt64 (PyNdarray sample_x) = Ok t ∧
    nd_shape t = nd_shape sample_x ∧
    nd_dtype t = dt_datetime64 unit_ns ∧
    @get_data numpy_numbers
      (adapter C_EasyMultiComponent "f0" Y_FIRST
         (cb_returning (PyTuple [PyNdarray sample_x; PyNdarray sample_z]))
         (Some ["a"; "b"; "c"]))
      1%positive (PyInt 0) (PyInt 60) =
      Ok (PySpeasyVariable
            {| sv_axes := [VariableTimeAxis t];
               sv_values := mk_DataContainer sample_z;
               sv_columns := Some ["a"; "b"; "c"] |}).
Proof.
  apply (@one_axis_fetch numpy_numbers
           (adapter C_EasyMultiComponent "f0" Y_FIRST
              (cb_returning (PyTuple [PyNdarray sample_x; PyNdarray sample_z]))
              (Some ["a"; "b"; "c"]))
           (cb_returning (PyTuple [PyNdarray sample_x; PyNdarray sample_z]))
           ["a"; "b"; "c"] 1%positive (PyInt 0) (PyInt 60) sample_x sample_z 2);
    reflexivity.
Defined.

Lemma fetch_unsupported_axis_witness :
  @get_data numpy_numbers
    (adapter C_EasySpectrogram "f0" Y_FIRST
       (cb_returning
          (PyTuple [PyList [PyInt 0; PyInt 1]; PyNdarray sample_y; PyNdarray sample_z]))
       None)
    1%positive (PyInt 0) (PyInt 60) =
  Raise (ValueError ("can't handle x axis type " +:+
                     type_repr (PyList [PyInt 0; PyInt 1]))).
Proof.
  apply (@fetch_unsupported_axis numpy_numbers
           (adapter C_EasySpectrogram "f0" Y_FIRST
              (cb_returning
                 (PyTuple [PyList [PyInt 0; PyInt 1]; PyNdarray sample_y;
                           PyNdarray sample_z])) None)
           (cb_returning
              (PyTuple [PyList [PyInt 0; PyInt 1]; PyNdarray sample_y;
                        PyNdarray sample_z]))
           1%positive (PyInt 0) (PyInt 60) (PyList [PyInt 0; PyInt 1])
           [PyNdarray sample_y; PyNdarray sample_z]);
    reflexivity.
Defined.

Lemma fetch_wrong_arity_witness :
  @get_data numpy_numbers
    (adapter C_EasyVector "f0" Y_FIRST
       (cb_returning (PyTuple [PyNdarray sample_x])) (Some ["a"]))
    1%positive (PyInt 0) (PyInt 60) =
  Raise (unpack_error 2 1).
Proof.
  apply (@fetch_wrong_arity numpy_numbers
           (adapter C_EasyVector "f0" Y_FIRST
              (cb_returning (PyTuple [PyNdarray sample_x])) (Some ["a"]))
           (cb_returning (PyTuple [PyNdarray sample_x]))
           1%positive (PyInt 0) (PyInt 60) [PyNdarray sample_x]);
    [reflexivity|reflexivity|reflexivity|simpl; lia].
Defined.

(** ** Paths *)

Lemma split_singleton sep s w : split sep s = [w] → s = w ∧ no_sep sep s = true.
Proof.
  revert w. induction s as [|c s IH]; intros w; simpl.
  - by intros [= <-].
  - destruct (bool_decide (c = sep)) eqn:Hc.
    + destruct (split_cons sep s) as (e & rest & ->). discriminate.
    + destruct (split_cons sep s) as (w' & ws & Hs). rewrite Hs in *.
      intros [= <- ->]. destruct (IH w' eq_refl) as [-> Hn]. by rewrite Hn.
Qed.

Lemma last_segment_String c s :
  last_segment (String c s) =
  if bool_decide (c = slash) then last_segment s
  else match split slash s with
       | [w] => String c w
       | _ => last_segment s
       end.
Proof.
  unfold last_segment. simpl.
  destruct (split_cons slash s) as (e & rest & Hs). rewrite Hs.
  destruct (bool_decide (c = slash)); [done|].
  by destruct rest.
Qed.

(** The last element of [path.split('/')] has no slash and is a suffix of
    the path. *)
Lemma last_segment_suffix path :
  no_sep slash (last_segment path) = true ∧
  ∃ parent, path = parent +:+ last_segment path.
Proof.
  induction path as [|c s [IHn (parent & IHp)]]; [split; [done|by exists ""]|].
  rewrite last_segment_String.
  destruct (bool_decide (c = slash)) eqn:Hc.
  - split; [done|]. exists (String c parent).
      change (String c s = String c (parent +:+ last_segment s)). by f_equal.
  - destruct (split slash s) as [|w [|w' ws]] eqn:Hs.
    + split; [done|]. exists (String c parent).
      change (String c s = String c (parent +:+ last_segment s)). by f_equal.
    + destruct (split_singleton _ _ _ Hs) as [-> Hn].
      split; [simpl; by rewrite Hc, Hn|]. by exists "".
    + split; [done|]. exists (String c parent).
      change (String c s = String c (parent +:+ last_segment s)). by f_equal.
Qed.

Lemma substring_prefix a b : substring 0 (String.length a) (a +:+ b) = a.
Proof.
  induction a as [|c a IH]; simpl; [by destruct b|]. by rewrite IH.
Qed.

Lemma length_append a b :
  String.length (a +:+ b) = String.length a + String.length b.
Proof. induction a as [|c a IH]; simpl; [done|]. by rewrite IH. Qed.

(** [path[:-len(product_name)]], when the name is not empty, is the path
    without the name. *)
Lemma str_drop_last_segment path :
  last_segment path ≠ "" →
  str_drop_last (String.length (last_segment path)) path +:+ last_segment path = path.
Proof.
  intros Hne. destruct (last_segment_suffix path) as [_ (parent & Hp)].
  remember (last_segment path) as l eqn:Hl. clear Hl. subst path.
  unfold str_drop_last. destruct l as [|c l]; [done|].
  rewrite length_append.
  replace (String.length parent + String.length (String c l) -
           String.length (String c l)) with (String.length parent) by lia.
  simpl String.length at 1. by rewrite substring_prefix.
Qed.

Lemma split_join sep e0 rest :
  Forall (λ e, no_sep sep e = true) (e0 :: rest) →
  split sep (join (String sep "") (e0 :: rest)) = e0 :: rest.
Proof.
  revert e0. induction rest as [|e1 rest IH]; intros e0 Hall.
  - simpl. apply split_no_sep. by inversion Hall.
  - inversion Hall as [|? ? H0 Hrest]; subst.
    change (join (String sep "") (e0 :: e1 :: rest)) with
      (e0 +:+ String sep "" +:+ join (String sep "") (e1 :: rest)).
    change (String sep "" +:+ join (String sep "") (e1 :: rest)) with
      (String sep (join (String sep "") (e1 :: rest))).
    rewrite split_app_sep by done. by rewrite IH.
Qed.

Lemma node_names_cons e0 e1 rest : node_names (e0 :: e1 :: rest) = e0 :: e1 :: rest.
Proof.
  unfold node_names, py_inner.
  destruct (last_cons_is_Some e0 (e1 :: rest)) as (y & Hy). rewrite Hy.
  f_equal. simpl tail. simpl in Hy. clear e0.
  revert e1 Hy. induction rest as [|e2 rest IH]; intros e1 Hy.
  - simpl in *. by injection Hy as ->.
  - change (removelast (e1 :: e2 :: rest)) with (e1 :: removelast (e2 :: rest)).
    simpl. f_equal. by apply IH.
Qed.

(** ** Constructing the adapters, continued *)

(** X10.  After any of the four adapters is constructed, the derived name
    not being registered before, the registry resolves the derived name to
    the new object, the object has that name,
    the given data order, the callback and its columns, and the product
    node put in the catalog is a childless parameter of the adapter's
    parameter type whose [provider] is that same name: looking the node's
    provider up in the registry gives the adapter. *)
Theorem adapter_registered s path cb metadata order w reg d :
  providers w = Some reg →
  reg !! derived_name cb w = None →
  dicts w !! metadata = Some d →
  ∃ self node name n ppath w',
    new_adapter s path cb metadata order w = (Ok self, w') ∧
    registered name w' = Some self ∧
    instances w' !! self =
      Some (adapter (shape_class s) name order cb (shape_columns s)) ∧
    DataProvider_name self w' = (Ok name, w') ∧
    DataProvider_data_order self w' = (Ok order, w') ∧
    head (products w') = Some (ppath, node) ∧
    nodes w' !! node = Some n ∧
    p_provider n = Some name ∧
    p_is_parameter n = true ∧
    p_parameter_type n = Some (shape_parameter_type s) ∧
    p_children n = [] ∧
    (p_provider n ≫= λ prov, registered prov w') = Some self.
Proof.
  intros Hreg _ Hd.
  exists (fresh (dom (instances w))), (fresh (dom (nodes w))), (derived_name cb w),
    (product_node path (fresh (dom (dicts w))) (derived_name cb w)
       (shape_parameter_type s)),
    (str_drop_last (String.length (last_segment path)) path),
    (constructed s path cb order reg d w).
  split; [by apply new_adapter_ok|].
  assert (registered (derived_name cb w) (constructed s path cb order reg d w) =
            Some (fresh (dom (instances w)))) as Hr
    by (unfold registered; simpl; apply lookup_insert_eq).
  split; [done|].
  split; [simpl; apply lookup_insert_eq|].
  split; [eapply getattr_ok; [simpl; apply lookup_insert_eq|done]|].
  split; [eapply getattr_ok; [simpl; apply lookup_insert_eq|done]|].
  split; [done|].
  split; [simpl; apply lookup_insert_eq|].
  by repeat split.
Qed.

Lemma adapter_registered_witness :
  ∃ self node name n ppath w',
    new_adapter (Scalar "b") "/tests/b" (cb_returning PyNone) 1%positive Y_FIRST
      sample_world = (Ok self, w') ∧
    registered name w' = Some self ∧
    instances w' !! self =
      Some (adapter C_EasyScalar name Y_FIRST (cb_returning PyNone) (Some ["b"])) ∧
    DataProvider_name self w' = (Ok name, w') ∧
    DataProvider_data_order self w' = (Ok Y_FIRST, w') ∧
    head (products w') = Some (ppath, node) ∧
    nodes w' !! node = Some n ∧
    p_provider n = Some name ∧
    p_is_parameter n = true ∧
    p_parameter_type n = Some SCALAR ∧
    p_children n = [] ∧
    (p_provider n ≫= λ prov, registered prov w') = Some self.
Proof.
  apply (adapter_registered (Scalar "b") "/tests/b" (cb_returning PyNone)
           1%positive Y_FIRST sample_world {[ "p" := 1%positive ]}
           {[ "units" := PyStr "nT" ]}); reflexivity.
Defined.

(** X11.  The adapters split the path at its last slash: the product is
    named (and identified) by the text after it, which holds no slash, and,
    when that text is not empty, it is registered in the catalog under the
    rest of the path, the two parts together giving the path back.  When
    the path ends with a slash the name is empty and the catalog path is
    the empty string, not the path. *)
Theorem adapter_path_split s path cb metadata order w reg d :
  providers w = Some reg →
  dicts w !! metadata = Some d →
  ∃ self node n ppath w',
    new_adapter s path cb metadata order w = (Ok self, w') ∧
    head (products w') = Some (ppath, node) ∧
    nodes w' !! node = Some n ∧
    p_name n = last_segment path ∧
    p_uid n = last_segment path ∧
    no_sep slash (p_name n) = true ∧
    (p_name n ≠ "" → ppath +:+ p_name n = path) ∧
    (p_name n = "" → ppath = "").
Proof.
  intros Hreg Hd.
  exists (fresh (dom (instances w))), (fresh (dom (nodes w))),
    (product_node path (fresh (dom (dicts w))) (derived_name cb w)
       (shape_parameter_type s)),
    (str_drop_last (String.length (last_segment path)) path),
    (constructed s path cb order reg d w).
  split; [by apply new_adapter_ok|].
  split; [done|].
  split; [simpl; apply lookup_insert_eq|].
  split; [done|]. split; [done|].
  split; [apply last_segment_suffix|].
  split; [apply str_drop_last_segment|].
  simpl. by intros ->.
Qed.

Lemma adapter_path_split_witness :
  ∃ self node n ppath w',
    new_adapter Spectrogram "/tests/spectro/" (cb_returning PyNone) 1%positive
      Y_FIRST sample_world = (Ok self, w') ∧
    head (products w') = Some (ppath, node) ∧
    nodes w' !! node = Some n ∧
    p_name n = last_segment "/tests/spectro/" ∧
    p_uid n = last_segment "/tests/spectro/" ∧
    no_sep slash (p_name n) = true ∧
    (p_name n ≠ "" → ppath +:+ p_name n = "/tests/spectro/") ∧
    (p_name n = "" → ppath = "").
Proof.
  apply (adapter_path_split Spectrogram "/tests/spectro/" (cb_returning PyNone)
           1%positive Y_FIRST sample_world {[ "p" := 1%positive ]}
           {[ "units" := PyStr "nT" ]}); reflexivity.
Defined.

(** X12.  Constructing an adapter adds one object, one dict, one node and
    one catalog entry, all new, and leaves every object, dict and node
    that existed as it was; in the registry only the entry of the derived
    name is written, every other name resolving as before. *)
Theorem adapter_construction_frame s path cb metadata order w reg d :
  providers w = Some reg →
  dicts w !! metadata = Some d →
  ∃ self w',
    new_adapter s path cb metadata order w = (Ok self, w') ∧
    (self ∉ dom (instances w)) ∧
    (∀ l, l ∈ dom (instances w) → instances w' !! l = instances w !! l) ∧
    (∀ l, l ∈ dom (dicts w) → dicts w' !! l = dicts w !! l) ∧
    (∀ l, l ∈ dom (nodes w) → nodes w' !! l = nodes w !! l) ∧
    tail (products w') = products w ∧
    (∀ other, other ≠ derived_name cb w →
              registered other w' = registered other w).
Proof.
  intros Hreg Hd.
  exists (fresh (dom (instances w))), (constructed s path cb order reg d w).
  split; [by apply new_adapter_ok|].
  split; [apply is_fresh|]. simpl.
  split.
  { intros l Hl. apply lookup_insert_ne. intros <-. by apply is_fresh in Hl. }
  split.
  { intros l Hl. apply lookup_insert_ne. intros <-. by apply is_fresh in Hl. }
  split.
  { intros l Hl. apply lookup_insert_ne. intros <-. by apply is_fresh in Hl. }
  split; [done|].
  intros other Hne. unfold registered. simpl. rewrite Hreg. simpl.
  by apply lookup_insert_ne.
Qed.

Lemma adapter_construction_frame_witness :
  ∃ self w',
    new_adapter (Vector ["x"; "y"]) "/tests/v" (cb_returning PyNone) 1%positive
      Y_FIRST sample_world = (Ok self, w') ∧
    (self ∉ dom (instances sample_world)) ∧
    (∀ l, l ∈ dom (instances sample_world) →
          instances w' !! l = instances sample_world !! l) ∧
    (∀ l, l ∈ dom (dicts sample_world) → dicts w' !! l = dicts sample_world !! l) ∧
    (∀ l, l ∈ dom (nodes sample_world) → nodes w' !! l = nodes sample_world !! l) ∧
    tail (products w') = products sample_world ∧
    (∀ other, other ≠ derived_name (cb_returning PyNone) sample_world →
              registered other w' = registered other sample_world).
Proof.
  apply (adapter_construction_frame (Vector ["x"; "y"]) "/tests/v"
           (cb_returning PyNone) 1%positive Y_FIRST sample_world
           {[ "p" := 1%positive ]} {[ "units" := PyStr "nT" ]}); reflexivity.
Defined.

(** X13.  [EasyProvider] constructed directly, not through one of the four
    adapters, the derived name not being registered before, writes the [description] entry into the dict it is given,
    replacing an entry of that key, and attaches that very dict to the
    product node: the caller's dict is modified. *)
Theorem EasyProvider_writes_metadata path cb parameter_type metadata order w reg d :
  providers w = Some reg →
  reg !! derived_name cb w = None →
  dicts w !! metadata = Some d →
  ∃ self node w',
    EasyProvider path cb parameter_type metadata order w = (Ok self, w') ∧
    dicts w' !! metadata =
      Some (<["description" := PyStr (description parameter_type cb)]> d) ∧
    head (products w') =
      Some (str_drop_last (String.length (last_segment path)) path, node) ∧
    p_metadata <$> nodes w' !! node = Some metadata ∧
    registered (derived_name cb w) w' = Some self.
Proof.
  intros Hreg _ Hd. unfold EasyProvider, construct.
  unfold bind at 1. unfold alloc_instance.
  set (self := fresh (dom (instances w))).
  set (wa := set_instances _ w).
  pose proof (EasyProvider_init_ok self path cb parameter_type metadata order wa
                reg d (blank C_EasyProvider) Hreg Hd) as Hinit.
  cbv zeta in Hinit.
  assert (instances wa !! self = Some (blank C_EasyProvider)) as Hi
    by (unfold wa; simpl; apply lookup_insert_eq).
  specialize (Hinit Hi).
  erewrite bind_ok by exact Hinit.
  eexists self, _, _. split; [reflexivity|]. simpl.
  split; [apply lookup_insert_eq|].
  split; [done|].
  split; [by rewrite lookup_insert_eq|].
  unfold registered. simpl. apply lookup_insert_eq.
Qed.

Lemma EasyProvider_writes_metadata_witness :
  ∃ self node w',
    EasyProvider "/tests/raw" (cb_returning PyNone) VECTOR 1%positive Y_FIRST
      sample_world = (Ok self, w') ∧
    dicts w' !! 1%positive =
      Some (<["description" := PyStr (description VECTOR (cb_returning PyNone))]>
              {[ "units" := PyStr "nT" ]}) ∧
    head (products w') =
      Some (str_drop_last (String.length (last_segment "/tests/raw")) "/tests/raw",
            node) ∧
    p_metadata <$> nodes w' !! node = Some 1%positive ∧
    registered (derived_name (cb_returning PyNone) sample_world) w' = Some self.
Proof.
  apply (EasyProvider_writes_metadata "/tests/raw" (cb_returning PyNone) VECTOR
           1%positive Y_FIRST sample_world {[ "p" := 1%positive ]}
           {[ "units" := PyStr "nT" ]}); reflexivity.
Defined.

(** ** The product hierarchy, continued *)

(** X14.  [build_product_hierarchy] only creates nodes and dicts: the
    root it returns is a new node, every node and every dict that existed
    is unchanged, and the registry, the provider objects, the catalog and
    the name counters are not touched. *)
Theorem build_hierarchy_frame fuel path provider inst pname parameter_type
    metadata w :
  instances w !! provider = Some inst → _name inst = Some pname →
  ∃ root w',
    build_product_hierarchy (S fuel) path provider parameter_type metadata w =
      (Ok root, w') ∧
    (root ∉ dom (nodes w)) ∧
    (∀ l, l ∈ dom (nodes w) → nodes w' !! l = nodes w !! l) ∧
    (∀ l, l ∈ dom (dicts w) → dicts w' !! l = dicts w !! l) ∧
    providers w' = providers w ∧ instances w' = instances w ∧
    products w' = products w ∧ incr_names w' = incr_names w.
Proof.
  intros Hi Hn.
  destruct (build_product_hierarchy_ok fuel provider inst pname parameter_type
              metadata Hn path w Hi) as (root & w' & Hrun & _ & Hroot & Hp).
  destruct Hp as (Hpn & Hpd & Hpi & Hpp & Hpc & Hpk).
  exists root, w'. repeat split; try done.
  intros l Hl. by apply Hpn.
Qed.

Lemma build_hierarchy_frame_witness :
  ∃ root w',
    build_product_hierarchy 1 "/AMDA/ACE/imf" 1%positive VECTOR 1%positive
      sample_world = (Ok root, w') ∧
    (root ∉ dom (nodes sample_world)) ∧
    (∀ l, l ∈ dom (nodes sample_world) → nodes w' !! l = nodes sample_world !! l) ∧
    (∀ l, l ∈ dom (dicts sample_world) → dicts w' !! l = dicts sample_world !! l) ∧
    providers w' = providers sample_world ∧ instances w' = instances sample_world ∧
    products w' = products sample_world ∧ incr_names w' = incr_names sample_world.
Proof.
  apply (build_hierarchy_frame 0 "/AMDA/ACE/imf" 1%positive
           (adapter_base C_DataProvider "p" X_FIRST) "p" VECTOR 1%positive
           sample_world); reflexivity.
Defined.

(** X15.  The leading slash of a path is optional: a path that does not
    start with a slash and the same path with one slash in front build
    the same thing, in every store. *)
Theorem build_hierarchy_leading_slash fuel path provider parameter_type metadata w :
  startswith slash path = false →
  build_product_hierarchy fuel (String slash path) provider parameter_type metadata w =
  build_product_hierarchy fuel path provider parameter_type metadata w.
Proof.
  intros Hs. unfold build_product_hierarchy.
  replace (strip_leading_slash (String slash path)) with path by reflexivity.
  replace (strip_leading_slash path) with path
    by (unfold strip_leading_slash; by rewrite Hs).
  reflexivity.
Qed.

Lemma build_hierarchy_leading_slash_witness :
  build_product_hierarchy 1 "/A/B/C" 1%positive SCALAR 1%positive sample_world =
  build_product_hierarchy 1 "A/B/C" 1%positive SCALAR 1%positive sample_world.
Proof.
  apply (build_hierarchy_leading_slash 1 "A/B/C" 1%positive SCALAR 1%positive
           sample_world). reflexivity.
Defined.

(** X16.  A path of a single segment is accepted: the root is a namespace
    node named after the segment and its one child is the parameter leaf,
    with the same name. *)
Theorem build_hierarchy_single_segment fuel A provider inst pname parameter_type
    metadata w :
  no_sep slash A = true →
  instances w !! provider = Some inst → _name inst = Some pname →
  ∃ root leaf md w',
    build_product_hierarchy (S fuel) A provider parameter_type metadata w =
      (Ok root, w') ∧
    nodes w' !! root = Some (namespace_node A md pname [leaf]) ∧
    nodes w' !! leaf = Some (leaf_node A metadata pname parameter_type) ∧
    root ≠ leaf.
Proof.
  intros HA Hi Hn.
  destruct (build_product_hierarchy_ok fuel provider inst pname parameter_type
              metadata Hn A w Hi) as (root & w' & Hrun & Hh & _).
  assert (strip_leading_slash A = A) as HsA.
  { unfold strip_leading_slash. destruct A as [|c A]; [done|]. simpl in *.
    apply andb_true_iff in HA as [Hc _]. apply negb_true_iff in Hc.
    by rewrite Hc. }
  rewrite HsA, split_no_sep in Hh by done.
  change (node_names [A]) with [A; A] in Hh.
  inversion Hh as [|? ? md leaf ? Hroot Hmd Hl]; subst.
  inversion Hl as [? ? Hleaf|? ? ? ? ? ? ? Hbad]; subst; [|inversion Hbad].
  exists root, leaf, md, w'. repeat split; try done.
  intros <-. rewrite Hroot in Hleaf. discriminate.
Qed.

Lemma build_hierarchy_single_segment_witness :
  ∃ root leaf md w',
    build_product_hierarchy 1 "imf" 1%positive VECTOR 1%positive sample_world =
      (Ok root, w') ∧
    nodes w' !! root = Some (namespace_node "imf" md "p" [leaf]) ∧
    nodes w' !! leaf = Some (leaf_node "imf" 1%positive "p" VECTOR) ∧
    root ≠ leaf.
Proof.
  apply (build_hierarchy_single_segment 0 "imf" 1%positive
           (adapter_base C_DataProvider "p" X_FIRST) "p" VECTOR 1%positive
           sample_world); reflexivity.
Defined.

(** X17.  For a path made of any number of segments, at least two, none
    of which holds a slash (empty segments included), the tree built is a
    chain with one node per segment, named after the segments in order,
    the last one being the parameter leaf. *)
Theorem build_hierarchy_segments fuel e0 e1 rest provider inst pname
    parameter_type metadata w :
  Forall (λ e, no_sep slash e = true) (e0 :: e1 :: rest) →
  instances w !! provider = Some inst → _name inst = Some pname →
  ∃ root w',
    build_product_hierarchy (S fuel) ("/" +:+ join "/" (e0 :: e1 :: rest))
      provider parameter_type metadata w = (Ok root, w') ∧
    hierarchy w' pname parameter_type metadata root (e0 :: e1 :: rest).
Proof.
  intros Hall Hi Hn.
  destruct (build_product_hierarchy_ok fuel provider inst pname parameter_type
              metadata Hn ("/" +:+ join "/" (e0 :: e1 :: rest)) w Hi)
    as (root & w' & Hrun & Hh & _).
  change (strip_leading_slash ("/" +:+ join "/" (e0 :: e1 :: rest))) with
    (join (String slash "") (e0 :: e1 :: rest)) in Hh.
  rewrite split_join, node_names_cons in Hh by done.
  eauto.
Qed.

Lemma build_hierarchy_segments_witness :
  ∃ root w',
    build_product_hierarchy 1 ("/" +:+ join "/" ["AMDA"; "ACE"; ""; "mag"; "imf"])
      1%positive VECTOR 1%positive sample_world = (Ok root, w') ∧
    hierarchy w' "p" VECTOR 1%positive root ["AMDA"; "ACE"; ""; "mag"; "imf"].
Proof.
  apply (build_hierarchy_segments 0 "AMDA" "ACE" [""; "mag"; "imf"] 1%positive
           (adapter_base C_DataProvider "p" X_FIRST) "p" VECTOR 1%positive
           sample_world); [repeat constructor|reflexivity|reflexivity].
Defined.

(** ** catalogs.py: index_of *)

Local Open Scope nat_scope.

Lemma index_of_loop_spec c cs : ∀ k,
  match index_of_loop c cs k with
  | Some r =>
      k ≤ r ∧
      (∃ c', cs !! (r - k) = Some (Some c') ∧ cat_uuid c' = cat_uuid c) ∧
      (∀ j c', j < r - k → cs !! j = Some (Some c') → cat_uuid c' ≠ cat_uuid c)
  | None => ∀ j c', cs !! j = Some (Some c') → cat_uuid c' ≠ cat_uuid c
  end.
Proof.
  induction cs as [|[c0|] cs IH]; intros k; simpl.
  - intros j c'. by rewrite lookup_nil.
  - case_bool_decide as Hu.
    + split; [lia|]. replace (k - k) with 0 by lia.
      split; [by exists c0|]. intros j c' Hj. lia.
    + specialize (IH (S k)). destruct (index_of_loop c cs (S k)) as [r|].
      * destruct IH as (Hle & (c' & Hc' & Hu') & Hfirst).
        split; [lia|].
        replace (r - k) with (S (r - S k)) by lia.
        split; [by exists c'|].
        intros [|j] c'' Hj; simpl; [by intros [= ->]|].
        apply Hfirst. lia.
      * intros [|j] c'; simpl; [by intros [= ->]|]. apply IH.
  - specialize (IH (S k)). destruct (index_of_loop c cs (S k)) as [r|].
    + destruct IH as (Hle & (c' & Hc' & Hu') & Hfirst).
      split; [lia|].
      replace (r - k) with (S (r - S k)) by lia.
      split; [by exists c'|].
      intros [|j] c'' Hj; simpl; [done|]. apply Hfirst. lia.
    + intros [|j] c'; simpl; [done|]. apply IH.
Qed.

(** X18.  [index_of] returns the position of the first entry of the list
    that is a catalogue with the uuid of the given one, whatever the names
    and whatever [None] entries come before it. *)
Theorem index_of_first_match catalogs catalog i c' :
  catalogs !! i = Some (Some c') →
  cat_uuid c' = cat_uuid catalog →
  (∀ j c'', j < i → catalogs !! j = Some (Some c'') →
            cat_uuid c'' ≠ cat_uuid catalog) →
  index_of catalogs (Some catalog) = i.
Proof.
  intros Hi Hu Hfirst. unfold index_of.
  pose proof (index_of_loop_spec catalog catalogs 0) as Hspec.
  destruct (index_of_loop catalog catalogs 0) as [r|].
  - destruct Hspec as (_ & (c0 & Hc0 & Hu0) & Hmin).
    replace (r - 0) with r in * by lia.
    destruct (Nat.lt_trichotomy r i) as [Hlt|[->|Hgt]]; [|done|].
    + by destruct (Hfirst r c0 Hlt Hc0).
    + by destruct (Hmin i c' ltac:(lia) Hi).
  - by destruct (Hspec i c' Hi).
Qed.

Lemma index_of_first_match_witness :
  index_of [None; Some ace; Some mms; Some mms_renamed] (Some mms_renamed) = 2.
Proof.
  apply (index_of_first_match [None; Some ace; Some mms; Some mms_renamed]
           mms_renamed 2 mms); [reflexivity|reflexivity|].
  intros [|[|j]] c'' Hj; [discriminate| |lia].
  intros [= <-]. discriminate.
Defined.

(** X19.  In a selector's list, which starts with the [None] entry,
    [index_of] always gives a valid position; it gives 0, the [None]
    entry, exactly when nothing is selected or no catalogue of the list
    has the uuid of the selection; and any other position it gives holds a
    catalogue with that uuid. *)
Theorem index_of_selector cats selected :
  index_of (None :: cats) selected < length (None :: cats) ∧
  (index_of (None :: cats) selected = 0 ↔
   selected = None ∨
   ∃ c, selected = Some c ∧ ∀ c', Some c' ∈ cats → cat_uuid c' ≠ cat_uuid c) ∧
  (index_of (None :: cats) selected ≠ 0 →
   ∃ c c', selected = Some c ∧
           (None :: cats) !! index_of (None :: cats) selected = Some (Some c') ∧
           cat_uuid c' = cat_uuid c).
Proof.
  destruct selected as [c|]; simpl.
  2:{ split; [lia|]. split; [|done]. split; [by left|done]. }
  pose proof (index_of_loop_spec c cats 1) as Hspec.
  destruct (index_of_loop c cats 1) as [r|].
  - destruct Hspec as (Hle & (c' & Hc' & Hu) & Hmin).
    assert (r - 1 < length cats) as Hlt by (by eapply lookup_lt_Some).
    split; [lia|]. split.
    + split; [lia|]. intros [[=]|(c0 & [= <-] & Hno)].
      destruct (Hno c'); [|done]. apply list_elem_of_lookup. eauto.
    + intros _. exists c, c'. split; [done|]. split; [|done].
      destruct r as [|r]; [lia|]. simpl.
      by replace (S r - 1) with r in Hc' by lia.
  - split; [lia|]. split; [|done]. split; [|done].
    intros _. right. exists c. split; [done|].
    intros c' [j Hj]%list_elem_of_lookup. by apply (Hspec j).
Qed.

(** ** catalogs.py: zoom_out *)

Lemma new_datetime_Done us d :
  new_datetime us = Done d → d = mk_datetime us ∧ datetime_valid d.
Proof.
  unfold new_datetime. case_decide; [|discriminate]. by intros [= <-].
Qed.

Lemma new_timedelta_Done us t :
  new_timedelta us = Done t → t = mk_timedelta us ∧ timedelta_valid t.
Proof.
  unfold new_timedelta. case_decide; [|discriminate]. by intros [= <-].
Qed.

(** X20.  When [zoom_out] returns, both ends are valid datetimes and they
    have moved by the same amount in opposite directions: the middle of
    the interval is kept, and the width changes by twice that amount. *)
Theorem zoom_out_symmetric start stop factor new_start new_stop :
  zoom_out start stop factor = Done (new_start, new_stop) →
  datetime_valid new_start ∧ datetime_valid new_stop ∧
  (dt_us new_start + dt_us new_stop = dt_us start + dt_us stop)%Z ∧
  ∃ delta,
    dt_us new_start = (dt_us start - delta)%Z ∧
    dt_us new_stop = (dt_us stop + delta)%Z ∧
    (dt_us new_stop - dt_us new_start = dt_us stop - dt_us start + 2 * delta)%Z.
Proof.
  unfold zoom_out. intros Hz.
  destruct (datetime_sub stop start) as [width|]; [|discriminate].
  simpl in Hz.
  destruct (timedelta_truediv width f64_two) as [half|]; [|discriminate].
  simpl in Hz.
  destruct (timedelta_mul half factor) as [delta|]; [|discriminate].
  simpl in Hz.
  destruct (datetime_minus start delta) as [s'|] eqn:Hs; [|discriminate].
  simpl in Hz.
  destruct (datetime_plus stop delta) as [e'|] eqn:He; [|discriminate].
  simpl in Hz. injection Hz as <- <-.
  apply new_datetime_Done in Hs as [-> Hvs], He as [-> Hve].
  split; [done|]. split; [done|]. simpl. split; [lia|].
  exists (td_us delta). lia.
Qed.

Lemma zoom_out_symmetric_witness :
  datetime_valid (mk_datetime (730000 * us_per_day + 42660000000)) ∧
  datetime_valid (mk_datetime (730000 * us_per_day + 47340000000)) ∧
  (dt_us (mk_datetime (730000 * us_per_day + 42660000000)) +
   dt_us (mk_datetime (730000 * us_per_day + 47340000000)) =
   dt_us noon + dt_us one_pm)%Z ∧
  ∃ delta,
    dt_us (mk_datetime (730000 * us_per_day + 42660000000)) = (dt_us noon - delta)%Z ∧
    dt_us (mk_datetime (730000 * us_per_day + 47340000000)) = (dt_us one_pm + delta)%Z ∧
    (dt_us (mk_datetime (730000 * us_per_day + 47340000000)) -
     dt_us (mk_datetime (730000 * us_per_day + 42660000000)) =
     dt_us one_pm - dt_us noon + 2 * delta)%Z.
Proof.
  apply (zoom_out_symmetric noon one_pm f64_0_3). vm_compute. reflexivity.
Defined.

Lemma reduce_ratio_pow m k :
  (0 < 2 ^ Z.of_nat (reduce_ratio m k).2)%Z.
Proof. apply Z.pow_pos_nonneg; lia. Qed.

Lemma as_integer_ratio_nonneg f num den :
  f64_nonneg f = true → as_integer_ratio f = Done (num, den) →
  (0 ≤ num ∧ 0 < den)%Z.
Proof.
  destruct f as [s|s| |s m e]; try discriminate; simpl.
  - intros _ [= <- <-]. lia.
  - intros Hs%negb_true_iff. subst s.
    destruct e as [|p|p].
    + intros [= <- <-]. lia.
    + intros [= <- <-]. split; [|lia].
      apply Z.mul_nonneg_nonneg; [lia|]. apply Z.pow_nonneg. lia.
    + pose proof (reduce_ratio_pow m (Pos.to_nat p)) as Hpow.
      destruct (reduce_ratio m (Pos.to_nat p)) as [m' k].
      intros [= <- <-]. simpl in Hpow. lia.
Qed.

Lemma divide_nearest_nonneg a b q :
  (0 ≤ a)%Z → (0 < b)%Z → divide_nearest a b = Done q → (0 ≤ q)%Z.
Proof.
  intros Ha Hb. unfold divide_nearest.
  rewrite decide_False by lia.
  assert (0 ≤ a / b)%Z by (apply Z.div_pos; lia).
  destruct (_ || _); intros [= <-]; lia.
Qed.

(** X21.  With a factor that is not negative and an interval given in
    order, [zoom_out] never shrinks the interval: the new start is not
    after the start and the new stop is not before the stop. *)
Theorem zoom_out_widens start stop factor new_start new_stop :
  f64_nonneg factor = true →
  (dt_us start ≤ dt_us stop)%Z →
  zoom_out start stop factor = Done (new_start, new_stop) →
  (dt_us new_start ≤ dt_us start ∧ dt_us stop ≤ dt_us new_stop)%Z.
Proof.
  intros Hf Hle. unfold zoom_out. intros Hz.
  destruct (datetime_sub stop start) as [width|] eqn:Hw; [|discriminate].
  simpl in Hz.
  destruct (timedelta_truediv width f64_two) as [half|] eqn:Hh; [|discriminate].
  simpl in Hz.
  destruct (timedelta_mul half factor) as [delta|] eqn:Hd; [|discriminate].
  simpl in Hz.
  destruct (datetime_minus start delta) as [s'|] eqn:Hs; [|discriminate].
  simpl in Hz.
  destruct (datetime_plus stop delta) as [e'|] eqn:He; [|discriminate].
  simpl in Hz. injection Hz as <- <-.
  apply new_datetime_Done in Hs as [-> _], He as [-> _].
  apply new_timedelta_Done in Hw as [-> _]. simpl.
  assert (0 ≤ td_us half)%Z as Hhalf.
  { revert Hh. unfold timedelta_truediv.
    change (as_integer_ratio f64_two) with (Done (2, 1)%Z). simpl.
    destruct (divide_nearest _ 2) as [q|] eqn:Hq; [|discriminate]. simpl.
    intros [-> _]%new_timedelta_Done. simpl.
    eapply divide_nearest_nonneg; [| |exact Hq]; lia. }
  assert (0 ≤ td_us delta)%Z as Hdelta.
  { revert Hd. unfold timedelta_mul.
    destruct (as_integer_ratio factor) as [[num den]|] eqn:Hr; [|discriminate].
    destruct (as_integer_ratio_nonneg _ _ _ Hf Hr) as [Hn Hden]. simpl.
    destruct (divide_nearest _ den) as [q|] eqn:Hq; [|discriminate]. simpl.
    intros [-> _]%new_timedelta_Done. simpl.
    eapply divide_nearest_nonneg; [| |exact Hq]; [|done].
    by apply Z.mul_nonneg_nonneg. }
  lia.
Qed.

Lemma zoom_out_widens_witness :
  (dt_us (mk_datetime (730000 * us_per_day + 42660000000)) ≤ dt_us noon ∧
   dt_us one_pm ≤ dt_us (mk_datetime (730000 * us_per_day + 47340000000)))%Z.
Proof.
  apply (zoom_out_widens noon one_pm f64_0_3); vm_compute; (reflexivity || discriminate).
Defined.

Lemma datetime_sub_valid a b :
  datetime_valid a → datetime_valid b →
  datetime_sub a b = Done (mk_timedelta (dt_us a - dt_us b)).
Proof.
  unfold datetime_valid, datetime_sub, new_timedelta, us_per_day. intros Ha Hb.
  rewrite decide_True; [done|].
  unfold timedelta_valid, us_per_day. simpl. lia.
Qed.

Lemma halve_valid w :
  (- 3652059 * us_per_day < w < 3652059 * us_per_day)%Z →
  ∃ h, timedelta_truediv (mk_timedelta w) f64_two = Done (mk_timedelta h) ∧
       (- 3652059 * us_per_day ≤ h ≤ 3652059 * us_per_day)%Z.
Proof.
  unfold us_per_day. intros Hw. unfold timedelta_truediv.
  change (as_integer_ratio f64_two) with (Done (2, 1)%Z). simpl.
  unfold divide_nearest. rewrite decide_False by lia.
  rewrite Z.mul_1_r.
  pose proof (Z.mul_div_le w 2 ltac:(lia)) as Hlo.
  pose proof (Z.mul_succ_div_gt w 2 ltac:(lia)) as Hhi.
  assert (∀ q, (w / 2 ≤ q ≤ w / 2 + 1)%Z →
               new_timedelta q = Done (mk_timedelta q) ∧
               (- 3652059 * (86400 * 1000000) ≤ q ≤ 3652059 * (86400 * 1000000))%Z)
    as Hq.
  { intros q Hq. unfold new_timedelta. rewrite decide_True.
    - split; [done|]. lia.
    - unfold timedelta_valid, us_per_day. simpl. lia. }
  destruct (_ || _); simpl.
  - destruct (Hq (w / 2 + 1)%Z ltac:(lia)) as [-> ?]. eauto.
  - destruct (Hq (w / 2)%Z ltac:(lia)) as [-> ?]. eauto.
Qed.

(** X22.  The degenerate factors, for valid datetimes: a zero factor, of
    either sign, returns the interval unchanged; a NaN factor raises the
    [ValueError] and an infinite one the [OverflowError] of
    [float.as_integer_ratio]. *)
Theorem zoom_out_degenerate start stop :
  datetime_valid start → datetime_valid stop →
  (∀ s, zoom_out start stop (S754_zero s) = Done (start, stop)) ∧
  zoom_out start stop S754_nan =
    Fails (RatioValueError "cannot convert NaN to integer ratio") ∧
  (∀ s, zoom_out start stop (S754_infinity s) =
        Fails (OverflowError "cannot convert Infinity to integer ratio")).
Proof.
  intros Hs He. unfold zoom_out.
  rewrite (datetime_sub_valid stop start He Hs). simpl.
  destruct (halve_valid (dt_us stop - dt_us start)) as (h & -> & Hh).
  { unfold datetime_valid, us_per_day in *. lia. }
  simpl. split; [|done]. intros s.
  unfold timedelta_mul. simpl. unfold divide_nearest.
  rewrite decide_False by lia. rewrite Z.mul_0_r. simpl.
  change (0 `div` 1)%Z with 0%Z.
  unfold datetime_minus, datetime_plus, new_datetime. simpl.
  rewrite Z.sub_0_r, Z.add_0_r.
  destruct start as [a], stop as [b]. simpl.
  rewrite decide_True by done. simpl. by rewrite decide_True.
Qed.

Lemma zoom_out_degenerate_witness :
  (∀ s, zoom_out noon one_pm (S754_zero s) = Done (noon, one_pm)) ∧
  zoom_out noon one_pm S754_nan =
    Fails (RatioValueError "cannot convert NaN to integer ratio") ∧
  (∀ s, zoom_out noon one_pm (S754_infinity s) =
        Fails (OverflowError "cannot convert Infinity to integer ratio")).
Proof.
  apply (zoom_out_degenerate noon one_pm);
    unfold datetime_valid, noon, one_pm, us_per_day; simpl; lia.
Defined.

Lemma index_of_selector_witness :
  ∃ c c', Some mms_renamed = Some c ∧
          [None; Some ace; Some mms] !! index_of [None; Some ace; Some mms]
                                          (Some mms_renamed) = Some (Some c') ∧
          cat_uuid c' = cat_uuid c.
Proof.
  apply (proj2 (proj2 (index_of_selector [Some ace; Some mms] (Some mms_renamed)))).
  vm_compute. discriminate.
Defined.

Lemma ensure_dt64_special_values_witness :
  ∃ l',
    ensure_dt64
      (PyNdarray (mk_ndarray [2] (buf_float64 [S754_nan; S754_zero true]))) =
      Ok (mk_ndarray [2] (buf_datetime64 unit_ns l')) ∧
    length l' = length [S754_nan; S754_zero true] ∧
    (∀ i f, [S754_nan; S754_zero true] !! i = Some f → f64_is_nan f = true →
            l' !! i = Some NaT) ∧
    (∀ i f, [S754_nan; S754_zero true] !! i = Some f → f64_is_zero f = true →
            l' !! i = Some 0%Z).
Proof.
  exact (ensure_dt64_special_values [2] [S754_nan; S754_zero true]).
Defined.

(** ** sciqlop_application.py: the quick-start shortcuts *)

Lemma dict_get_set_eq {V} k (v : V) d : dict_get k (dict_set k v d) = Some v.
Proof.
  induction d as [|[k' v'] d IH]; simpl.
  - by rewrite bool_decide_eq_true_2.
  - case_bool_decide as Hk; simpl.
    + by rewrite bool_decide_eq_true_2.
    + by rewrite bool_decide_eq_false_2.
Qed.

Lemma dict_get_set_ne {V} k k0 (v : V) d :
  k0 ≠ k → dict_get k0 (dict_set k v d) = dict_get k0 d.
Proof.
  intros Hne. induction d as [|[k' v'] d IH]; simpl.
  - by rewrite bool_decide_eq_false_2.
  - case_bool_decide as Hk; simpl.
    + subst k'. by rewrite !bool_decide_eq_false_2.
    + by rewrite IH.
Qed.

Lemma dict_keys_set_in {V} k (v : V) d :
  k ∈ dict_keys d → dict_keys (dict_set k v d) = dict_keys d.
Proof.
  unfold dict_keys. induction d as [|[k' v'] d IH]; simpl.
  - by intros ?%elem_of_nil.
  - case_bool_decide as Hk; simpl; [by subst k'|].
    intros [?|Hin]%elem_of_cons; [congruence|]. f_equal. by apply IH.
Qed.

Lemma dict_keys_set_notin {V} k (v : V) d :
  k ∉ dict_keys d → dict_keys (dict_set k v d) = (dict_keys d ++ [k])%list.
Proof.
  unfold dict_keys. induction d as [|[k' v'] d IH]; simpl; [done|].
  intros Hnin. apply not_elem_of_cons in Hnin as [Hne Hnin].
  rewrite bool_decide_eq_false_2 by congruence. simpl. f_equal. by apply IH.
Qed.

Lemma dict_get_None {V} k (d : list (string * V)) :
  dict_get k d = None ↔ k ∉ dict_keys d.
Proof.
  unfold dict_keys. induction d as [|[k' v'] d IH]; simpl.
  - split; [intros _; apply not_elem_of_nil|done].
  - case_bool_decide as Hk.
    + subst k'. split; [done|]. intros Hnin. destruct Hnin. apply elem_of_cons. by left.
    + rewrite IH, not_elem_of_cons. split; [intros ?; split; [by intros ->|done]|by intros [_ ?]].
Qed.

(** X23.  After [add_quickstart_shortcut], looking the name up gives the
    entry just stored, every other name gives what it gave before, the
    signal has been emitted once more, with the name, and the list of
    names is unchanged if the name was known (the entry is replaced in
    place) and has the name appended otherwise. *)
Theorem shortcut_add_lookup self name description icon callback :
  let app := add_quickstart_shortcut self name description icon callback in
  quickstart_shortcut app name = Some (mk_shortcut name description icon callback) ∧
  (∀ other, other ≠ name → quickstart_shortcut app other = quickstart_shortcut self other) ∧
  quickstart_shortcuts_added app = name :: quickstart_shortcuts_added self ∧
  (name ∈ quickstart_shortcuts self →
   quickstart_shortcuts app = quickstart_shortcuts self) ∧
  (name ∉ quickstart_shortcuts self →
   quickstart_shortcuts app = (quickstart_shortcuts self ++ [name])%list).
Proof.
  simpl. unfold quickstart_shortcut, quickstart_shortcuts. simpl.
  split; [apply dict_get_set_eq|].
  split; [intros other Hne; by apply dict_get_set_ne|].
  split; [done|].
  split; [apply dict_keys_set_in|apply dict_keys_set_notin].
Qed.

Lemma shortcut_add_lookup_witness :
  let app := add_quickstart_shortcut
               (add_quickstart_shortcut new_SciQLopApp "plot" "New plot" 1 1)
               "plot" "New plot panel" 2 2 in
  quickstart_shortcut app "plot" = Some (mk_shortcut "plot" "New plot panel" 2 2) ∧
  (∀ other, other ≠ "plot" →
     quickstart_shortcut app other =
     quickstart_shortcut (add_quickstart_shortcut new_SciQLopApp "plot" "New plot" 1 1)
       other) ∧
  quickstart_shortcuts_added app = ["plot"; "plot"] ∧
  ("plot" ∈ ["plot"] → quickstart_shortcuts app = ["plot"]) ∧
  ("plot" ∉ ["plot"] → quickstart_shortcuts app = (["plot"] ++ ["plot"])%list).
Proof.
  exact (shortcut_add_lookup
           (add_quickstart_shortcut new_SciQLopApp "plot" "New plot" 1 1)
           "plot" "New plot panel" 2 2).
Defined.

Lemma shortcut_keys_step self name description icon callback :
  (name ∈ quickstart_shortcuts self →
   quickstart_shortcuts (add_quickstart_shortcut self name description icon callback) =
   quickstart_shortcuts self) ∧
  (name ∉ quickstart_shortcuts self →
   quickstart_shortcuts (add_quickstart_shortcut self name description icon callback) =
   (quickstart_shortcuts self ++ [name])%list).
Proof.
  unfold quickstart_shortcuts. simpl.
  split; [apply dict_keys_set_in|apply dict_keys_set_notin].
Qed.

Lemma after_additions_snoc calls name description icon callback :
  after_additions (calls ++ [(name, description, icon, callback)]) =
  add_quickstart_shortcut (after_additions calls) name description icon callback.
Proof. unfold after_additions. by rewrite foldl_app. Qed.

(** X24.  Whatever shortcuts are added to a new app, in whatever order
    and however often under the same name: the list of names has no
    duplicate and holds exactly the names that were added; looking a name
    up gives [None] exactly when it is not in that list, without raising;
    an entry found under a name carries that name; and the signal has been
    emitted once per call. *)
Theorem shortcuts_invariant calls :
  let app := after_additions calls in
  NoDup (quickstart_shortcuts app) ∧
  (∀ name, name ∈ quickstart_shortcuts app ↔ name ∈ calls.*1.*1.*1) ∧
  (∀ name, quickstart_shortcut app name = None ↔ name ∉ quickstart_shortcuts app) ∧
  (∀ name s, quickstart_shortcut app name = Some s → sc_name s = name) ∧
  length (quickstart_shortcuts_added app) = length calls.
Proof.
  simpl. induction calls as [|[[[name description] icon] callback] calls IH]
    using rev_ind.
  - split; [constructor|]. split; [done|]. split; [|done].
    intros name. split; [intros _; apply not_elem_of_nil|done].
  - rewrite after_additions_snoc.
    destruct IH as (Hnd & Hin & Hnone & Hname & Hlen).
    pose proof (shortcut_keys_step (after_additions calls) name description icon
                  callback) as Hkeys.
    split.
    { destruct (decide (name ∈ quickstart_shortcuts (after_additions calls)))
        as [Hk|Hk].
      - by rewrite (proj1 Hkeys Hk).
      - rewrite (proj2 Hkeys Hk). apply NoDup_app. split; [done|].
        split; [|apply NoDup_singleton].
        intros x Hx ->%list_elem_of_singleton. done. }
    split.
    { intros x. rewrite !fmap_app. simpl. rewrite elem_of_app, list_elem_of_singleton.
      rewrite <- Hin.
      destruct (decide (name ∈ quickstart_shortcuts (after_additions calls)))
        as [Hk|Hk].
      - rewrite (proj1 Hkeys Hk). split; [by left|]. by intros [?| ->].
      - rewrite (proj2 Hkeys Hk). by rewrite elem_of_app, list_elem_of_singleton. }
    split; [intros x; apply dict_get_None|].
    split.
    { intros x s. unfold quickstart_shortcut. simpl.
      destruct (decide (x = name)) as [->|Hne].
      - rewrite dict_get_set_eq. by intros [= <-].
      - rewrite dict_get_set_ne by done. apply Hname. }
    simpl. rewrite length_app. simpl. lia.
Qed.

(** ** mpl_panel.py: the plots of a panel *)

(** X25.  [child_at] never raises: it gives [None] exactly for a row that
    is negative or not below the number of plots.  [__getitem__] only
    ever returns an [MPLFigure] that is among the plots; and when every
    plot is a figure, it gives for a row in range the plot [child_at]
    gives. *)
Theorem panel_access plots :
  (∀ row, child_at plots row = None ↔
          ¬ (0 ≤ row < Z.of_nat (length plots))%Z) ∧
  (∀ index w, MPLPanel_getitem plots index = Ok w →
              is_MPLFigure w = true ∧ w ∈ plots) ∧
  (Forall (λ w, is_MPLFigure w = true) plots →
   ∀ row w, (0 ≤ row < Z.of_nat (length plots))%Z →
            (MPLPanel_getitem plots row = Ok w ↔ child_at plots row = Some w)).
Proof.
  split; [|split].
  - intros row. unfold child_at. case_decide as Hr; [|done].
    split; [|done]. intros Hnone. apply lookup_ge_None in Hnone. lia.
  - intros index w. unfold MPLPanel_getitem, py_getitem.
    case_decide; [|discriminate].
    destruct (_ !! _) as [x|] eqn:Hx; [|discriminate]. intros [= <-].
    apply list_elem_of_lookup_2 in Hx. by apply list_elem_of_filter in Hx.
  - intros Hall row w Hrow. unfold MPLPanel_getitem, py_getitem, child_at.
    assert (filter (λ w, is_MPLFigure w = true) plots = plots) as ->.
    { clear Hrow. induction Hall as [|x l Hx Hl IH]; [done|].
      rewrite filter_cons_True by done. by rewrite IH. }
    rewrite (decide_False (P := (row < 0)%Z)) by lia.
    rewrite !decide_True by done.
    destruct (plots !! Z.to_nat row); split; congruence.
Qed.

Lemma shortcuts_invariant_witness :
  let app := after_additions
               [("plot", "New plot", 1, 1); ("jupyter", "Notebook", 2, 2);
                ("plot", "New plot panel", 3, 3)] in
  NoDup (quickstart_shortcuts app) ∧
  (∀ name, name ∈ quickstart_shortcuts app ↔ name ∈ ["plot"; "jupyter"; "plot"]) ∧
  (∀ name, quickstart_shortcut app name = None ↔ name ∉ quickstart_shortcuts app) ∧
  (∀ name s, quickstart_shortcut app name = Some s → sc_name s = name) ∧
  length (quickstart_shortcuts_added app) = 3.
Proof.
  exact (shortcuts_invariant
           [("plot", "New plot", 1, 1); ("jupyter", "Notebook", 2, 2);
            ("plot", "New plot panel", 3, 3)]).
Defined.

Lemma panel_access_witness :
  MPLPanel_getitem [mk_widget true 1; mk_widget true 2] 1 = Ok (mk_widget true 2) ↔
  child_at [mk_widget true 1; mk_widget true 2] 1 = Some (mk_widget true 2).
Proof.
  apply (proj2 (proj2 (panel_access [mk_widget true 1; mk_widget true 2]))).
  - repeat constructor.
  - simpl. lia.
Defined.

(** ** From construction to fetch *)

Section construct_then_fetch.
Context `{Numpy}.

(** X26.  After a scalar, vector or multi-component adapter is
    constructed, the derived name not being registered before, the product
    node it put in the catalog leads, through its [provider] name and the
    registry, to an object whose fetch adapts a callback result [(x, y)],
    [x] a supported time axis and [y] an array of the same length,
    into a variable with the normalized [x] as its one axis, [y] as data,
    and as columns the component name (scalar) or the component names
    (vector, multi-component) given to the constructor. *)
Theorem constructed_adapter_fetch s path cb metadata order w reg d columns
    start stop x y n :
  providers w = Some reg →
  reg !! derived_name cb w = None →
  dicts w !! metadata = Some d →
  shape_columns s = Some columns →
  cb_call cb start stop = Ok (PyTuple [PyNdarray x; PyNdarray y]) →
  axis_supported (PyNdarray x) = true →
  nd_len x = Ok n →
  nd_len y = Ok n →
  ∃ self node ppath n provider t w',
    new_adapter s path cb metadata order w = (Ok self, w') ∧
    head (products w') = Some (ppath, node) ∧
    nodes w' !! node = Some n ∧
    (p_provider n ≫= λ prov, registered prov w' ≫= λ l, instances w' !! l) =
      Some provider ∧
    ensure_dt64 (PyNdarray x) = Ok t ∧
    get_data provider node start stop =
      Ok (PySpeasyVariable
            {| sv_axes := [VariableTimeAxis t];
               sv_values := mk_DataContainer y;
               sv_columns := Some columns |}).
Proof.
  intros Hreg _ Hd Hcols He Hx Hnx Hny.
  pose proof (get_data_pair
                (adapter (shape_class s) (derived_name cb w) order cb (shape_columns s))
                cb columns (fresh (dom (nodes w))) start stop x y n) as Hfetch.
  destruct Hfetch as (t & Ht & _ & _ & Hget); try done.
  { by destruct s. }
  exists (fresh (dom (instances w))), (fresh (dom (nodes w))),
    (str_drop_last (String.length (last_segment path)) path),
    (product_node path (fresh (dom (dicts w))) (derived_name cb w)
       (shape_parameter_type s)),
    (adapter (shape_class s) (derived_name cb w) order cb (shape_columns s)),
    t, (constructed s path cb order reg d w).
  split; [by apply new_adapter_ok|].
  split; [done|].
  split; [simpl; apply lookup_insert_eq|].
  split; [|done].
  simpl. unfold registered. simpl. rewrite lookup_insert_eq. simpl.
  apply lookup_insert_eq.
Qed.
End construct_then_fetch.

Lemma constructed_adapter_fetch_witness :
  ∃ self node ppath n provider t w',
    new_adapter (Scalar "b") "/tests/b"
      (cb_returning (PyTuple [PyNdarray sample_x; PyNdarray sample_x]))
      1%positive Y_FIRST sample_world = (Ok self, w') ∧
    head (products w') = Some (ppath, node) ∧
    nodes w' !! node = Some n ∧
    (p_provider n ≫= λ prov, registered prov w' ≫= λ l, instances w' !! l) =
      Some provider ∧
    ensure_dt64 (PyNdarray sample_x) = Ok t ∧
    @get_data numpy_numbers provider node (PyInt 0) (PyInt 60) =
      Ok (PySpeasyVariable
            {| sv_axes := [VariableTimeAxis t];
               sv_values := mk_DataContainer sample_x;
               sv_columns := Some ["b"] |}).
Proof.
  apply (@constructed_adapter_fetch numpy_numbers (Scalar "b") "/tests/b"
           (cb_returning (PyTuple [PyNdarray sample_x; PyNdarray sample_x]))
           1%positive Y_FIRST sample_world {[ "p" := 1%positive ]}
           {[ "units" := PyStr "nT" ]} ["b"] (PyInt 0) (PyInt 60) sample_x sample_x 2);
    reflexivity.
Defined.
